(** * Gav-Autograder: the build / compile / execute / compare pipeline

    A shallow embedding of [autograder/models.py]: the [TestCase],
    [Submission] and [TestOutput] models, the signal receivers attached to
    them, and the methods of [Submission] that drive g++, the docker engine
    and the [TestOutput] table.

    Python text is modelled as [string], Python integers as [Z] (or [nat]
    for lengths, indices and primary keys), a model table as the list of its
    rows in table order, and the file system and the docker engine as
    fields of an explicit [World] threaded through a state-and-exception
    monad. *)

From Stdlib Require Import List String Ascii Bool Arith ZArith Lia RelationClasses.
Import ListNotations.
Open Scope nat_scope.

Set Implicit Arguments.

(** ** Exceptions and results of pure computations *)

Inductive exn : Type :=
| IndexError               (* str[i] out of range *)
| FileExistsError          (* os.makedirs on an existing directory *)
| FileNotFoundError        (* shutil.rmtree on a missing directory *)
| ReadTimeout              (* docker: Container.wait(timeout=..) exceeded *)
| UnicodeDecodeError       (* bytes.decode() on bytes that are not UTF-8 *)
| ImageNotFound            (* docker: create / remove with an unknown image *)
| BuildError               (* docker: images.build failed *)
| APIError                 (* docker: any other refusal by the engine *)
| DoesNotExist             (* QuerySet.get: no row *)
| MultipleObjectsReturned  (* QuerySet.get: more than one row *)
| CalledProcessError       (* subprocess.check_call: non-zero exit, timeout *)
| ValueError               (* Model.save: update_fields on an unsaved instance *)
| DatabaseError.           (* Model.save: update_fields matched no row *)

Inductive outcome (A : Type) : Type :=
| Ok (a : A)
| Raise (e : exn).

Arguments Ok {A} a.
Arguments Raise {A} e.

Definition obind {A B : Type} (c : outcome A) (k : A -> outcome B) : outcome B :=
  match c with
  | Ok a => k a
  | Raise e => Raise e
  end.

Notation "'let!' x ':=' c 'in' k" := (obind c (fun x => k))
  (at level 10, x name, c at level 100, k at level 200).

Fixpoint omap {A B : Type} (f : A -> outcome B) (l : list A) : outcome (list B) :=
  match l with
  | [] => Ok []
  | x :: l' =>
      let! y := f x in
      let! ys := omap f l' in
      Ok (y :: ys)
  end.

(** ** The models *)

Module TestCase.
Record t : Type := mk {
  pk : nat;
  assignment : nat;
  input : string;
  output : string
}.
End TestCase.

Module TestOutput.
Record t : Type := mk {
  pk : nat;
  submission : nat;
  testcase : nat;
  output : string
}.
End TestOutput.

(** A [Submission] instance.  [adding] is Django's [_state.adding]: true
    for an instance that has not been written to the database yet.  The
    [date] column ([auto_now]) plays no part in the pipeline and is left
    out. *)
Module Submission.
Record t : Type := mk {
  pk : nat;
  adding : bool;
  student : nat;
  assignment : nat;
  confirmed : bool;
  source_file : string;
  compiles : bool
}.
End Submission.

(** ** The result comparator (the dictionary built in [test_results]) *)

Module Result.
Record annotated : Type := mk_char {
  char : ascii;
  incorrect : bool;
  newline : bool
}.
Record t : Type := mk {
  passed : bool;
  input : string;
  output : list annotated;
  missing_output : Z
}.
End Result.

Module Results.
Record t : Type := mk {
  compiles : bool;
  tests : list Result.t
}.
End Results.

(** [s[i]] for a non-negative [i]. *)
Definition index (s : string) (i : nat) : outcome ascii :=
  match String.get i s with
  | Some c => Ok c
  | None => Raise IndexError
  end.

Definition newline_char : ascii := "010"%char.

(** One element of the list comprehension
    [{'char': test_output[i], 'incorrect': (i >= len(expected)) or
    (test_output[i] != expected[i]), 'newline': test_output[i] == '\n'}];
    [or] evaluates its right operand only when the left one is false. *)
Definition annotate_char (test_output expected : string) (i : nat)
  : outcome Result.annotated :=
  let! c := index test_output i in
  let! inc :=
    (if Nat.leb (String.length expected) i then Ok true
     else
       let! a := index test_output i in
       let! e := index expected i in
       Ok (negb (Ascii.eqb a e))) in
  let! c' := index test_output i in
  Ok (Result.mk_char c inc (Ascii.eqb c' newline_char)).

Definition compare (test_output : string) (testcase : TestCase.t)
  : outcome Result.t :=
  let p := String.eqb test_output (TestCase.output testcase) in
  let i := TestCase.input testcase in
  let! o := omap (annotate_char test_output (TestCase.output testcase))
                 (seq 0 (String.length test_output)) in
  Ok (Result.mk p i o
        (Z.of_nat (String.length (TestCase.output testcase))
         - Z.of_nat (String.length test_output))).

(** ** The world outside the Python process

    The database tables, the media directory and the docker engine.  A
    context directory [MEDIA_ROOT/docker/context-<pk>] is identified by
    [pk]; the files written into it are not tracked one by one: the image
    built from the directory records what it held.  Primary keys of new
    rows are drawn from the counter [fresh]. *)

Module Image.
Record t : Type := mk {
  tag : nat;
  program : string;
  inputs : list (nat * string)
}.
End Image.

Inductive container_state : Type := Created | Running | Exited.

Module Container.
Record t : Type := mk {
  id : nat;
  image : Image.t;
  testcase : nat;
  state : container_state
}.
End Container.

Record World : Type := mkWorld {
  testcases : list TestCase.t;
  submissions : list Submission.t;
  testoutputs : list TestOutput.t;
  student_files : list string;
  contexts : list nat;
  images : list Image.t;
  containers : list Container.t;
  started : nat;
  log : list string;
  fresh : nat
}.

Definition set_submissions (x : list Submission.t) (w : World) : World :=
  mkWorld (testcases w) x (testoutputs w) (student_files w) (contexts w)
          (images w) (containers w) (started w) (log w) (fresh w).

Definition set_testoutputs (x : list TestOutput.t) (w : World) : World :=
  mkWorld (testcases w) (submissions w) x (student_files w) (contexts w)
          (images w) (containers w) (started w) (log w) (fresh w).

Definition set_testcases (x : list TestCase.t) (w : World) : World :=
  mkWorld x (submissions w) (testoutputs w) (student_files w) (contexts w)
          (images w) (containers w) (started w) (log w) (fresh w).

Definition set_student_files (x : list string) (w : World) : World :=
  mkWorld (testcases w) (submissions w) (testoutputs w) x (contexts w)
          (images w) (containers w) (started w) (log w) (fresh w).

Definition set_contexts (x : list nat) (w : World) : World :=
  mkWorld (testcases w) (submissions w) (testoutputs w) (student_files w) x
          (images w) (containers w) (started w) (log w) (fresh w).

Definition set_images (x : list Image.t) (w : World) : World :=
  mkWorld (testcases w) (submissions w) (testoutputs w) (student_files w)
          (contexts w) x (containers w) (started w) (log w) (fresh w).

Definition set_containers (x : list Container.t) (w : World) : World :=
  mkWorld (testcases w) (submissions w) (testoutputs w) (student_files w)
          (contexts w) (images w) x (started w) (log w) (fresh w).

Definition set_started (x : nat) (w : World) : World :=
  mkWorld (testcases w) (submissions w) (testoutputs w) (student_files w)
          (contexts w) (images w) (containers w) x (log w) (fresh w).

Definition set_log (x : list string) (w : World) : World :=
  mkWorld (testcases w) (submissions w) (testoutputs w) (student_files w)
          (contexts w) (images w) (containers w) (started w) x (fresh w).

Definition set_fresh (x : nat) (w : World) : World :=
  mkWorld (testcases w) (submissions w) (testoutputs w) (student_files w)
          (contexts w) (images w) (containers w) (started w) (log w) x.

(** ** Statements: a state monad in which an exception keeps the state *)

Definition M (A : Type) : Type := World -> World * outcome A.

Definition ret {A : Type} (a : A) : M A := fun w => (w, Ok a).

Definition raise {A : Type} (e : exn) : M A := fun w => (w, Raise e).

Definition bind {A B : Type} (c : M A) (k : A -> M B) : M B :=
  fun w =>
    match c w with
    | (w', Ok a) => k a w'
    | (w', Raise e) => (w', Raise e)
    end.

Notation "x <- c ;; k" := (bind c (fun x => k))
  (at level 61, c at next level, right associativity).
Notation "c ;;; k" := (bind c (fun _ => k))
  (at level 61, right associativity).

Definition modify (f : World -> World) : M unit := fun w => (f w, Ok tt).

Definition reads {A : Type} (f : World -> A) : M A := fun w => (w, Ok (f w)).

Definition lift {A : Type} (o : outcome A) : M A := fun w => (w, o).

(** [try: c] with the exception, if any, handed back as a value. *)
Definition try {A : Type} (c : M A) : M (outcome A) :=
  fun w => let (w', r) := c w in (w', Ok r).

(** [for x in l: body x] *)
Fixpoint for_each {A : Type} (l : list A) (body : A -> M unit) : M unit :=
  match l with
  | [] => ret tt
  | x :: l' => body x ;;; for_each l' body
  end.

(** A loop that carries the local variables [S] assigned in its body. *)
Fixpoint for_fold {A S : Type} (l : list A) (body : S -> A -> M S) (s : S) : M S :=
  match l with
  | [] => ret s
  | x :: l' => s' <- body s x ;; for_fold l' body s'
  end.

(** ** Columns of [Submission], as named in [update_fields] *)

Inductive field : Type :=
| F_student | F_assignment | F_date | F_confirmed | F_source_file | F_compiles.

Definition field_eqb (a b : field) : bool :=
  match a, b with
  | F_student, F_student | F_assignment, F_assignment | F_date, F_date
  | F_confirmed, F_confirmed | F_source_file, F_source_file
  | F_compiles, F_compiles => true
  | _, _ => false
  end.

(** [f in update_fields] *)
Definition field_in (f : field) (fs : list field) : bool := existsb (field_eqb f) fs.

Definition with_compiles (c : bool) (s : Submission.t) : Submission.t :=
  Submission.mk (Submission.pk s) (Submission.adding s) (Submission.student s)
    (Submission.assignment s) (Submission.confirmed s) (Submission.source_file s) c.

Definition with_source_file (f : string) (s : Submission.t) : Submission.t :=
  Submission.mk (Submission.pk s) (Submission.adding s) (Submission.student s)
    (Submission.assignment s) (Submission.confirmed s) f (Submission.compiles s).

(** The instance as stored: key [pk], no longer [adding]. *)
Definition stored (pk : nat) (s : Submission.t) : Submission.t :=
  Submission.mk pk false (Submission.student s) (Submission.assignment s)
    (Submission.confirmed s) (Submission.source_file s) (Submission.compiles s).

(** The row after [UPDATE .. SET <update_fields>] from instance [self]. *)
Definition write_columns (fs : list field) (self row : Submission.t) : Submission.t :=
  Submission.mk (Submission.pk row) false
    (if field_in F_student fs then Submission.student self else Submission.student row)
    (if field_in F_assignment fs then Submission.assignment self else Submission.assignment row)
    (if field_in F_confirmed fs then Submission.confirmed self else Submission.confirmed row)
    (if field_in F_source_file fs then Submission.source_file self else Submission.source_file row)
    (if field_in F_compiles fs then Submission.compiles self else Submission.compiles row).

(** ** What a program does inside its container *)

Inductive run_outcome : Type :=
| Exits (out : string)      (* ends within 5 s; its output is the text [out] *)
| ExitsGarbled              (* ends within 5 s; its output is not UTF-8 *)
| Hangs (partial : string). (* still running after 5 s, [partial] written so far *)

(** ** The surroundings the code calls into and does not control *)

Record Env : Type := mkEnv {
  (* [subprocess.check_call(['g++', '-o', ..., source], timeout=2)] returns:
     g++ exits with status 0 within two seconds on this source file *)
  gxx : string -> bool;
  (* [client.images.build(path=context, tag=..)] succeeds for this context *)
  build_succeeds : Image.t -> bool;
  (* what [bash -c "./student-program < input-file-<pk>.txt"] does in a
     container of the image *)
  container_run : Image.t -> nat -> run_outcome;
  (* [submission_path(instance, filename)], which reads the clock and the
     student's user name *)
  submission_path : Submission.t -> string -> string;
  (* [os.path.basename], [os.path.dirname] *)
  basename : string -> string;
  dirname : string -> string
}.

Section Pipeline.

Variable E : Env.

(** *** Queries *)

(** [assignment.testcase_set.all()] *)
Definition testcase_set (assignment : nat) : M (list TestCase.t) :=
  reads (fun w =>
    filter (fun tc => TestCase.assignment tc =? assignment) (testcases w)).

(** [TestOutput.objects.filter(<p>).delete()] *)
Definition testoutputs_delete (p : TestOutput.t -> bool) : M unit :=
  modify (fun w => set_testoutputs (filter (fun o => negb (p o)) (testoutputs w)) w).

Definition of_pair (submission testcase : nat) (o : TestOutput.t) : bool :=
  (TestOutput.submission o =? submission) && (TestOutput.testcase o =? testcase).

(** [self.testoutput_set.get(testcase=testcase)] *)
Definition testoutput_get (submission testcase : nat) : M TestOutput.t :=
  fun w =>
    match filter (of_pair submission testcase) (testoutputs w) with
    | [] => (w, Raise DoesNotExist)
    | [o] => (w, Ok o)
    | _ :: _ :: _ => (w, Raise MultipleObjectsReturned)
    end.

(** [TestOutput.objects.create(submission=.., testcase=.., output=..)] *)
Definition testoutput_create (submission testcase : nat) (output : string) : M unit :=
  fun w =>
    (set_fresh (S (fresh w))
       (set_testoutputs
          (testoutputs w ++ [TestOutput.mk (fresh w) submission testcase output]) w),
     Ok tt).

(** [Submission.objects.get(pk=pk)] *)
Definition submission_get (pk : nat) : M Submission.t :=
  fun w =>
    match filter (fun s => Submission.pk s =? pk) (submissions w) with
    | [] => (w, Raise DoesNotExist)
    | [s] => (w, Ok s)
    | _ :: _ :: _ => (w, Raise MultipleObjectsReturned)
    end.

(** [transaction.on_commit(f)]: outside a transaction Django calls [f] at
    once; inside one it calls [f] when the transaction commits.  The
    embedding takes the first reading. *)
Definition on_commit (f : M unit) : M unit := f.

(** *** The media directory *)

(** [os.makedirs(context_path)] *)
Definition makedirs (p : nat) : M unit :=
  fun w =>
    if existsb (Nat.eqb p) (contexts w) then (w, Raise FileExistsError)
    else (set_contexts (p :: contexts w) w, Ok tt).

(** [shutil.rmtree(context_path)] *)
Definition rmtree (p : nat) : M unit :=
  fun w =>
    if existsb (Nat.eqb p) (contexts w)
    then (set_contexts (filter (fun q => negb (q =? p)) (contexts w)) w, Ok tt)
    else (w, Raise FileNotFoundError).

(** [subprocess.check_call(arg_list, timeout=2)] *)
Definition check_call_gxx (source : string) : M unit :=
  if gxx E source then ret tt else raise CalledProcessError.

(** [log.write(s)] on [MEDIA_ROOT/log.txt] opened with ['a+'] *)
Definition log_write (s : string) : M unit :=
  modify (fun w => set_log (log w ++ [s]) w).

(** *** The docker engine *)

Definition has_tag (tag : nat) (i : Image.t) : bool := Image.tag i =? tag.

(** [client.images.build(path=.., tag=..)]: a tag that is in use moves to
    the new image. *)
Definition images_build (img : Image.t) : M unit :=
  fun w =>
    if build_succeeds E img
    then (set_images
            (img :: filter (fun i => negb (has_tag (Image.tag img) i)) (images w)) w,
          Ok tt)
    else (w, Raise BuildError).

(** [client.images.remove(image_tag)]: refused while a container of the
    image exists. *)
Definition images_remove (image_tag : option nat) : M unit :=
  fun w =>
    match image_tag with
    | None => (w, Raise ImageNotFound)
    | Some tag =>
        if negb (existsb (has_tag tag) (images w)) then (w, Raise ImageNotFound)
        else if existsb (fun c => has_tag tag (Container.image c)) (containers w)
        then (w, Raise APIError)
        else (set_images (filter (fun i => negb (has_tag tag i)) (images w)) w, Ok tt)
    end.

(** The engine names a new container apart from those it holds. *)
Definition new_id (w : World) : nat :=
  S (list_max (map Container.id (containers w))).

(** [client.containers.create(image_tag, command=.., ...)] *)
Definition containers_create (image_tag : option nat) (testcase : nat) : M nat :=
  fun w =>
    match image_tag with
    | None => (w, Raise ImageNotFound)
    | Some tag =>
        match find (has_tag tag) (images w) with
        | None => (w, Raise ImageNotFound)
        | Some img =>
            (set_containers
               (containers w ++ [Container.mk (new_id w) img testcase Created]) w,
             Ok (new_id w))
        end
    end.

Definition has_id (id : nat) (c : Container.t) : bool := Container.id c =? id.

Definition with_state (st : container_state) (c : Container.t) : Container.t :=
  Container.mk (Container.id c) (Container.image c) (Container.testcase c) st.

Definition set_state (id : nat) (st : container_state) (w : World) : World :=
  set_containers
    (map (fun c => if has_id id c then with_state st c else c) (containers w)) w.

(** [container.start()] *)
Definition container_start (id : nat) : M unit :=
  fun w =>
    match find (has_id id) (containers w) with
    | None => (w, Raise APIError)
    | Some _ => (set_started (S (started w)) (set_state id Running w), Ok tt)
    end.

(** [container.wait(timeout=5)]: the docker SDK raises
    [requests.exceptions.ReadTimeout] when the container has not stopped
    within the timeout; the container is left as it is. *)
Definition container_wait (id : nat) : M unit :=
  fun w =>
    match find (has_id id) (containers w) with
    | None => (w, Raise APIError)
    | Some c =>
        match container_run E (Container.image c) (Container.testcase c) with
        | Hangs _ => (w, Raise ReadTimeout)
        | _ => (set_state id Exited w, Ok tt)
        end
    end.

(** [container.logs().decode()] *)
Definition container_logs (id : nat) : M string :=
  fun w =>
    match find (has_id id) (containers w) with
    | None => (w, Raise APIError)
    | Some c =>
        match container_run E (Container.image c) (Container.testcase c) with
        | Exits out => (w, Ok out)
        | ExitsGarbled => (w, Raise UnicodeDecodeError)
        | Hangs partial => (w, Ok partial)
        end
    end.

Definition is_running (c : Container.t) : bool :=
  match Container.state c with Running => true | _ => false end.

(** [container.remove()]: without [force] the engine refuses to remove a
    running container. *)
Definition container_remove (id : nat) : M unit :=
  fun w =>
    match find (has_id id) (containers w) with
    | None => (w, Raise APIError)
    | Some c =>
        if is_running c then (w, Raise APIError)
        else (set_containers (filter (fun c => negb (has_id id c)) (containers w)) w,
              Ok tt)
    end.

(** *** Source files of submissions

    [student_files] lists the files under [MEDIA_ROOT/student-files].
    Directories are not stored: [delete_source_file_directory] removes a
    directory as soon as it is empty, so a directory exists when a file
    lies in it. *)

Definition path_exists (path : string) (w : World) : bool :=
  existsb (String.eqb path) (student_files w).

Definition dir_exists (dir : string) (w : World) : bool :=
  existsb (fun f => String.eqb (dirname E f) dir) (student_files w).

(** [Submission.delete_source_file] *)
Definition delete_source_file (self : Submission.t) : M unit :=
  let path := Submission.source_file self in
  fun w =>
    if path_exists path w
    then (set_student_files
            (filter (fun f => negb (String.eqb path f)) (student_files w)) w, Ok tt)
    else (w, Ok tt).

(** The closure [move_submission_file] of the receiver below. *)
Definition move_submission_file (instance : Submission.t) (old_path new_name : string)
  : M Submission.t :=
  let instance := with_source_file new_name instance in
  fun w =>
    if dir_exists (dirname E new_name) w then (w, Raise FileExistsError)
    else if negb (path_exists old_path w) then (w, Raise FileNotFoundError)
    else (set_student_files
            (map (fun f => if String.eqb old_path f then new_name else f)
                 (student_files w)) w,
          Ok instance).

(** [move_or_delete_submission_file], the [pre_save] receiver of
    [Submission]; it returns the instance, whose [source_file] the second
    branch reassigns. *)
Definition move_or_delete_submission_file
  (instance : Submission.t) (update_fields : option (list field)) : M Submission.t :=
  match update_fields with
  | None => ret instance
  | Some fs =>
      if Submission.adding instance then ret instance
      else if field_in F_source_file fs then
        old_submission <- submission_get (Submission.pk instance) ;;
        on_commit (delete_source_file old_submission) ;;;
        ret instance
      else if field_in F_student fs || field_in F_assignment fs then
        let old_path := Submission.source_file instance in
        let new_name := submission_path E instance (basename E old_path) in
        move_submission_file instance old_path new_name
      else ret instance
  end.

(** [delete_submission_file], the [pre_delete] receiver of [Submission]. *)
Definition delete_submission_file (instance : Submission.t) : M unit :=
  on_commit (delete_source_file instance).

(** [delete_obsolete_testoutputs], the [pre_save] receiver of [TestCase];
    [adding] is the instance's [_state.adding]. *)
Definition delete_obsolete_testoutputs (instance : TestCase.t) (adding : bool) : M unit :=
  if adding then ret tt
  else
    on_commit
      (testoutputs_delete (fun o => TestOutput.testcase o =? TestCase.pk instance)).

(** *** Methods of [Submission] *)

Definition get_context_path (self : Submission.t) : nat := Submission.pk self.

(** [Submission.docker_prep]; the result is [image_tag], [None] when the
    compilation failed.  The bare [except] takes any failure of
    [check_call] (non-zero exit, timeout, g++ missing).  The copy of the
    Dockerfile and the input files are writes inside the directory; they
    show in the image that is built from it. *)
Definition docker_prep (self : Submission.t) : M (option nat) :=
  let context_path := get_context_path self in
  makedirs context_path ;;;
  r <- try (check_call_gxx (Submission.source_file self)) ;;
  match r with
  | Raise _ =>
      rmtree context_path ;;;
      ret None
  | Ok _ =>
      tcs <- testcase_set (Submission.assignment self) ;;
      let image_tag := Submission.pk self in
      images_build
        (Image.mk image_tag (Submission.source_file self)
           (map (fun tc => (TestCase.pk tc, TestCase.input tc)) tcs)) ;;;
      ret (Some image_tag)
  end.

(** [Submission.single_test] *)
Definition single_test (self : Submission.t) (image_tag : option nat)
  (testcase : TestCase.t) : M string :=
  container <- containers_create image_tag (TestCase.pk testcase) ;;
  container_start container ;;;
  container_wait container ;;;
  container_output <- container_logs container ;;
  container_remove container ;;;
  log_write ("Test output:" ++ String newline_char "")%string ;;;
  log_write container_output ;;;
  testoutput_create (Submission.pk self) (TestCase.pk testcase) container_output ;;;
  ret container_output.

(** [Submission.docker_cleanup] *)
Definition docker_cleanup (self : Submission.t) (image_tag : option nat) : M unit :=
  images_remove image_tag ;;;
  rmtree (get_context_path self).

(** [Submission.full_test] *)
Definition full_test (self : Submission.t) : M bool :=
  testoutputs_delete (fun o => TestOutput.submission o =? Submission.pk self) ;;;
  image_tag <- docker_prep self ;;
  match image_tag with
  | Some _ =>
      tcs <- testcase_set (Submission.assignment self) ;;
      for_each tcs (fun testcase =>
        single_test self image_tag testcase ;;; ret tt) ;;;
      docker_cleanup self image_tag ;;;
      ret true
  | None => ret false
  end.

(** Django's [Model.save] on a [Submission]: the [pre_save] receiver,
    then the row.  An empty [update_fields] returns before the signal is
    sent; [update_fields] on an instance without a row is refused. *)
Definition model_save (self : Submission.t) (update_fields : option (list field))
  : M Submission.t :=
  match update_fields with
  | Some [] => ret self
  | _ =>
      self <- move_or_delete_submission_file self update_fields ;;
      fun w =>
        if Submission.adding self then
          match update_fields with
          | Some _ => (w, Raise ValueError)
          | None =>
              let row := stored (fresh w) self in
              (set_fresh (S (fresh w)) (set_submissions (submissions w ++ [row]) w),
               Ok row)
          end
        else if existsb (fun r => Submission.pk r =? Submission.pk self) (submissions w)
        then
          let fs :=
            match update_fields with
            | Some fs => fs
            | None => [F_student; F_assignment; F_date; F_confirmed;
                       F_source_file; F_compiles]
            end in
          (set_submissions
             (map (fun r =>
                     if Submission.pk r =? Submission.pk self
                     then write_columns fs self r else r)
                  (submissions w)) w,
           Ok self)
        else
          match update_fields with
          | Some _ => (w, Raise DatabaseError)
          | None =>
              (set_submissions
                 (submissions w ++ [stored (Submission.pk self) self]) w,
               Ok self)
          end
  end.

(** [Submission.save(update_fields=.., run_tests=..)]; [run_tests] is the
    value of [kwargs.get('run_tests', True)].  Of the keyword arguments
    handed on to Django's save only [update_fields] is modelled. *)
Definition save (self : Submission.t) (update_fields : option (list field))
  (run_tests : bool) : M Submission.t :=
  self <- model_save self update_fields ;;
  if run_tests then
    c <- full_test self ;;
    let self := with_compiles c self in
    model_save self (Some [F_compiles])
  else ret self.

(** The local variables [docker_client], [image_tag] and the list
    [results['tests']] of [test_results]. *)
Record locals : Type := mk_locals {
  docker_client : bool;            (* [docker_client is not None] *)
  image_tag : option nat;
  tests : list Result.t
}.

(** One turn of the loop of [test_results]. *)
Definition test_results_body (self : Submission.t) (l : locals) (testcase : TestCase.t)
  : M locals :=
  r <- try (testoutput_get (Submission.pk self) (TestCase.pk testcase)) ;;
  l_out <-
    match r with
    | Ok o => ret (l, TestOutput.output o)
    | Raise DoesNotExist =>
        l <- (if docker_client l then ret l
              else
                tag <- docker_prep self ;;
                ret (mk_locals true tag (tests l))) ;;
        test_output <- single_test self (image_tag l) testcase ;;
        ret (l, test_output)
    | Raise e => raise e
    end ;;
  result <- lift (compare (snd l_out) testcase) ;;
  ret (mk_locals (docker_client (fst l_out)) (image_tag (fst l_out))
         (tests (fst l_out) ++ [result])).

(** The property [Submission.test_results] *)
Definition test_results (self : Submission.t) : M Results.t :=
  if negb (Submission.adding self) && negb (Submission.compiles self)
  then ret (Results.mk (Submission.compiles self) [])
  else
    tcs <- testcase_set (Submission.assignment self) ;;
    l <- for_fold tcs (test_results_body self) (mk_locals false None []) ;;
    (if docker_client l then docker_cleanup self (image_tag l) else ret tt) ;;;
    ret (Results.mk (Submission.compiles self) (tests l)).

(** *** [TestCase] rows *)

(** [TestCase.save()]: the [pre_save] receiver, then the row. *)
Definition testcase_save (instance : TestCase.t) (adding : bool) : M TestCase.t :=
  delete_obsolete_testoutputs instance adding ;;;
  fun w =>
    if adding then
      let row := TestCase.mk (fresh w) (TestCase.assignment instance)
                   (TestCase.input instance) (TestCase.output instance) in
      (set_fresh (S (fresh w)) (set_testcases (testcases w ++ [row]) w), Ok row)
    else
      (set_testcases
         (map (fun r => if TestCase.pk r =? TestCase.pk instance then instance else r)
              (testcases w)) w,
       Ok instance).

(** [TestCase.delete()]: [TestOutput.testcase] is [on_delete=CASCADE]. *)
Definition testcase_delete (instance : TestCase.t) : M unit :=
  testoutputs_delete (fun o => TestOutput.testcase o =? TestCase.pk instance) ;;;
  modify (fun w =>
    set_testcases
      (filter (fun r => negb (TestCase.pk r =? TestCase.pk instance)) (testcases w)) w).

(** [Submission.delete()]: the [pre_delete] receiver, then the cascade. *)
Definition submission_delete (instance : Submission.t) : M unit :=
  delete_submission_file instance ;;;
  testoutputs_delete (fun o => TestOutput.submission o =? Submission.pk instance) ;;;
  modify (fun w =>
    set_submissions
      (filter (fun r => negb (Submission.pk r =? Submission.pk instance))
              (submissions w)) w).

End Pipeline.

(** ** Notions the properties are stated with *)

(** What a row of [TestOutput] says, its key aside. *)
Definition content (o : TestOutput.t) : nat * nat * string :=
  (TestOutput.submission o, TestOutput.testcase o, TestOutput.output o).

Definition of_submission (s : nat) (o : TestOutput.t) : bool :=
  TestOutput.submission o =? s.

Definition of_testcase (t : nat) (o : TestOutput.t) : bool :=
  TestOutput.testcase o =? t.

(** At most one row of [TestOutput] for a (submission, testcase) pair. *)
Definition unique_rows (l : list TestOutput.t) : Prop :=
  forall s t, List.length (filter (of_pair s t) l) <= 1.

Definition unique_pairs (w : World) : Prop := unique_rows (testoutputs w).

(** [TestCase.pk] is a primary key, and lies below the counter that new
    keys come from. *)
Definition testcase_keys (w : World) : Prop :=
  NoDup (map TestCase.pk (testcases w)) /\
  Forall (fun tc => TestCase.pk tc < fresh w) (testcases w).

(** The operations of the core: the two evaluations and the writes that
    invalidate cached results. *)
Inductive operation : Type :=
| Save (self : Submission.t) (update_fields : option (list field)) (run_tests : bool)
| FullTest (self : Submission.t)
| TestResults (self : Submission.t)
| SaveTestCase (instance : TestCase.t) (adding : bool)
| DeleteTestCase (instance : TestCase.t)
| DeleteSubmission (instance : Submission.t).

(** The world an operation leaves, whether it returns or raises. *)
Definition perform (E : Env) (o : operation) (w : World) : World :=
  match o with
  | Save self update_fields run_tests => fst (save E self update_fields run_tests w)
  | FullTest self => fst (full_test E self w)
  | TestResults self => fst (test_results E self w)
  | SaveTestCase instance adding => fst (testcase_save instance adding w)
  | DeleteTestCase instance => fst (testcase_delete instance w)
  | DeleteSubmission instance => fst (submission_delete instance w)
  end.

(** The text a finished program left in its container. *)
Definition exits_with (E : Env) (img : Image.t) (tc : TestCase.t) (out : string) : Prop :=
  container_run E img (TestCase.pk tc) = Exits out.

(** The test cases of an assignment, as [testcase_set] lists them. *)
Definition testcases_of (assignment : nat) (w : World) : list TestCase.t :=
  filter (fun tc => TestCase.assignment tc =? assignment) (testcases w).

(** The image [docker_prep] builds for a submission. *)
Definition image_of (self : Submission.t) (w : World) : Image.t :=
  Image.mk (Submission.pk self) (Submission.source_file self)
    (map (fun tc => (TestCase.pk tc, TestCase.input tc))
         (testcases_of (Submission.assignment self) w)).

(** [s[i]], or a filler where Python would raise. *)
Definition char_at (s : string) (i : nat) : ascii :=
  match String.get i s with
  | Some c => c
  | None => zero
  end.

(** The annotation of the character [a] found at index [i]. *)
Definition annotation (expected : string) (i : nat) (a : ascii) : Result.annotated :=
  Result.mk_char a
    (match String.get i expected with
     | Some e => negb (Ascii.eqb a e)
     | None => true
     end)
    (Ascii.eqb a newline_char).


(** Relations between the world before and after a statement. *)

(** [steps R c]: every run of [c], returning or raising, takes the world
    along [R]. *)
Definition steps {A : Type} (R : World -> World -> Prop) (c : M A) : Prop :=
  forall w w' r, c w = (w', r) -> R w w'.

(** The part [f] of the world is untouched. *)
Definition same {A : Type} (f : World -> A) (w w' : World) : Prop := f w' = f w.

(** No row of [TestOutput] is lost. *)
Definition grows (w w' : World) : Prop := incl (testoutputs w) (testoutputs w').

(** The counter of new keys does not go back. *)
Definition ahead (w w' : World) : Prop := fresh w <= fresh w'.

(** The result [r] shown for test case [tc] comes from comparing the
    output of a row that [w] holds for the submission and the test case. *)
Definition answers (self : Submission.t) (w : World) (tc : TestCase.t) (r : Result.t)
  : Prop :=
  exists o,
    In o (testoutputs w) /\
    TestOutput.submission o = Submission.pk self /\
    TestOutput.testcase o = TestCase.pk tc /\
    compare (TestOutput.output o) tc = Ok r.


(** The property [P] of the world is kept. *)
Definition keeps (P : World -> Prop) (w w' : World) : Prop := P w -> P w'.


(** The rows for [self] and the test cases [tcs], in order. *)
Definition rows_for (self : Submission.t) (tcs : list TestCase.t)
  (news : list TestOutput.t) : Prop :=
  Forall2 (fun tc o => TestOutput.submission o = Submission.pk self /\
                       TestOutput.testcase o = TestCase.pk tc) tcs news.


(** The rows a run of the eager loop writes: keys from [k] on, one row
    per test case, with the text its program wrote. *)
Fixpoint new_rows (k s : nat) (tcs : list TestCase.t) (outs : list string)
  : list TestOutput.t :=
  match tcs, outs with
  | tc :: tcs', out :: outs' =>
      TestOutput.mk k s (TestCase.pk tc) out :: new_rows (S k) s tcs' outs'
  | _, _ => []
  end.

(** The lines the same run appends to [log.txt]. *)
Fixpoint new_log (outs : list string) : list string :=
  match outs with
  | [] => []
  | out :: outs' =>
      ("Test output:" ++ String newline_char "")%string :: out :: new_log outs'
  end.

(** No context directory is left over for the submission, and no
    container made from an image under its tag. *)
Definition clean_for (self : Submission.t) (w : World) : Prop :=
  ~ In (get_context_path self) (contexts w) /\
  forall c, In c (containers w) -> Image.tag (Container.image c) <> Submission.pk self.

(** The row of the submission carries the flag [c]. *)
Definition flagged (pk : nat) (c : bool) (w : World) : Prop :=
  (exists row, In row (submissions w) /\ Submission.pk row = pk) /\
  (forall row, In row (submissions w) -> Submission.pk row = pk ->
               Submission.compiles row = c).


(** The table of submissions once the row of [self] has taken the
    [compiles] flag of [self]. *)
Definition flag_written (self : Submission.t) (w : World) : World :=
  set_submissions
    (map (fun r =>
            if Submission.pk r =? Submission.pk self
            then write_columns [F_compiles] self r else r)
         (submissions w)) w.


(** The result shown for a test case whose program wrote [actual]. *)
Definition shown (actual : string) (tc : TestCase.t) : Result.t :=
  Result.mk (String.eqb actual (TestCase.output tc)) (TestCase.input tc)
    (map (fun i => annotation (TestCase.output tc) i (char_at actual i))
         (seq 0 (String.length actual)))
    (Z.of_nat (String.length (TestCase.output tc)) - Z.of_nat (String.length actual)).

(** The results shown for test cases and the rows that answer them. *)
Definition shown_all (tcs : list TestCase.t) (rows : list TestOutput.t)
  : list Result.t :=
  map (fun p => shown (TestOutput.output (snd p)) (fst p)) (combine tcs rows).





(** ** Notions for the lazy evaluation of a partly filled cache *)








(** ** The forms and filters that call the pipeline *)

Definition with_confirmed (c : bool) (s : Submission.t) : Submission.t :=
  Submission.mk (Submission.pk s) (Submission.adding s) (Submission.student s)
    (Submission.assignment s) c (Submission.source_file s) (Submission.compiles s).

(** [SubmissionConfirmForm.save] (forms.py): the form has no field, so
    [super().save(commit=False)] hands back the instance; it is marked
    confirmed and saved with [update_fields=['confirmed']]. *)
Definition confirm_form_save (E : Env) (instance : Submission.t) : M Submission.t :=
  let submission := with_confirmed true instance in
  save E submission (Some [F_confirmed]) true.


(** The rows of [Submission] under a key. *)
Definition rows_of (pk : nat) (w : World) : list Submission.t :=
  filter (fun r => Submission.pk r =? pk) (submissions w).




(** The filter [submissiongrade] (templatetags/autograder_filters.py).
    Of the text [f'{percent:.2f}% ({passed}/{total})'] the two counts are
    kept; [passed / total] raises [ZeroDivisionError] on a zero [total]. *)
Inductive grade : Type :=
| Percent (passed total : nat)
| CompilationFailed.

Inductive divided (A : Type) : Type :=
| Quotient (a : A)
| ZeroDivisionError.

Arguments Quotient {A} a.
Arguments ZeroDivisionError {A}.

Definition submissiongrade (E : Env) (submission : Submission.t) : M (divided grade) :=
  test_results <- test_results E submission ;;
  if Results.compiles test_results then
    let passed := List.length (filter Result.passed (Results.tests test_results)) in
    tcs <- testcase_set (Submission.assignment submission) ;;
    let total := List.length tcs in
    if total =? 0 then ret ZeroDivisionError
    else ret (Quotient (Percent passed total))
  else ret (Quotient CompilationFailed).

(** ** The student backend (backends.py) *)

Module User.
Record t : Type := mk {
  username : string;
  is_active : bool;
  is_staff : bool
}.
End User.

Section Backend.

(** [ModelBackend.user_can_authenticate], Django's own check. *)
Variable super_user_can_authenticate : User.t -> bool.

(** [StudentBackend.user_can_authenticate] *)
Definition user_can_authenticate (user : User.t) : bool :=
  super_user_can_authenticate user && negb (User.is_staff user).

(** [StudentBackend.authenticate(request, username)]: the result is the
    user, or [None]. No password is asked for. *)
Definition authenticate (users : list User.t) (username : option string)
  : outcome (option User.t) :=
  match username with
  | None => Ok None
  | Some name =>
      match filter (fun u => String.eqb (User.username u) name) users with
      | [] => Ok None
      | [user] => if user_can_authenticate user then Ok (Some user) else Ok None
      | _ :: _ :: _ => Raise MultipleObjectsReturned
      end
  end.

End Backend.

(** ** Line endings of a test case (forms.py) *)

Definition carriage_return : ascii := "013"%char.

(** [text.replace('\r\n', '\n')]: left to right, without overlap. *)
Fixpoint replace_crlf (text : string) : string :=
  match text with
  | EmptyString => EmptyString
  | String c rest =>
      match rest with
      | EmptyString => String c EmptyString
      | String c' rest' =>
          if Ascii.eqb c carriage_return && Ascii.eqb c' newline_char
          then String newline_char (replace_crlf rest')
          else String c (replace_crlf rest)
      end
  end.

(** [TestCaseCreateForm.clean], on the two cleaned texts. *)
Definition testcase_form_clean (input output : string) : string * string :=
  (replace_crlf input, replace_crlf output).

(** A text as a browser on Windows sends it: every newline preceded by a
    carriage return. *)
Fixpoint with_crlf (text : string) : string :=
  match text with
  | EmptyString => EmptyString
  | String c rest =>
      if Ascii.eqb c newline_char
      then String carriage_return (String newline_char (with_crlf rest))
      else String c (with_crlf rest)
  end.


(** ** The upload view (views.py) *)

(** [request.user], as far as the views ask. *)
Module Requester.
Record t : Type := mk {
  pk : nat;
  is_authenticated : bool;
  is_staff : bool
}.
End Requester.

(** What [SubmissionCreateView.dispatch] answers.  [handle_no_permission]
    sends an anonymous user to the login page and raises
    [PermissionDenied] for a user who is logged in. *)
Inductive response : Type :=
| RedirectToLogin
| RedirectToAssignment
| RedirectToCourseList
| PermissionDenied
| Dispatched.          (* super().dispatch(..): the form is shown or processed *)

(** [user.submission_set.filter(assignment_id=..)] *)
Definition submission_set (student assignment : nat) (w : World) : list Submission.t :=
  filter (fun s => (Submission.student s =? student)
                   && (Submission.assignment s =? assignment))
         (submissions w).

Definition unconfirmed (l : list Submission.t) : list Submission.t :=
  filter (fun s => negb (Submission.confirmed s)) l.

Section Views.

(** The keys of the rows of [Assignment], and who is enrolled in the
    course of an assignment: [enrolled assignment user]. *)
Variable assignment_pks : list nat.
Variable enrolled : nat -> nat -> bool.

(** [SubmissionCreateView.dispatch]; [pk] is the assignment of the URL.
    The messages it leaves for the next page are not modelled. *)
Definition submission_create_dispatch (user : Requester.t) (pk : nat) : M response :=
  if negb (Requester.is_authenticated user) then ret RedirectToLogin
  else if negb (existsb (Nat.eqb pk) assignment_pks) then raise DoesNotExist
  else if Requester.is_staff user then ret RedirectToAssignment
  else if negb (enrolled pk (Requester.pk user)) then ret RedirectToCourseList
  else
    tcs <- testcase_set pk ;;
    if List.length tcs =? 0 then ret PermissionDenied
    else
      mine <- reads (submission_set (Requester.pk user) pk) ;;
      if negb (List.length (unconfirmed mine) =? 0) then ret RedirectToAssignment
      else if 10 <=? List.length mine then ret RedirectToAssignment
      else ret Dispatched.

End Views.

(** [SubmissionCreateView.form_valid] on the new instance of the form,
    which holds the uploaded file and the defaults of the other columns;
    [super().form_valid] saves it. *)
Definition submission_create_form_valid (E : Env) (user : Requester.t)
  (assignment : nat) (source_file : string) : M Submission.t :=
  let instance :=
    Submission.mk 0 true (Requester.pk user) assignment false source_file false in
  save E instance None true.


(** ** Sample data *)

Module Sample.

#[local] Open Scope string_scope.
#[local] Open Scope list_scope.
#[local] Open Scope nat_scope.

Definition nl : string := String newline_char "".

(** g++ rejects [bad.cpp] and accepts the other sources; the image of
    [nobuild.cpp] does not build; [loop.cpp] never ends; [slow.cpp] ends
    on test case 1 only; any other program prints 5 and a newline on test
    case 1 and 3 without a newline otherwise. *)
Definition env : Env :=
  mkEnv
    (fun source => negb (String.eqb source "bad.cpp"))
    (fun img => negb (String.eqb (Image.program img) "nobuild.cpp"))
    (fun img tc =>
       if String.eqb (Image.program img) "loop.cpp" then Hangs ""
       else match tc with
            | 1 => Exits ("5" ++ nl)
            | _ => if String.eqb (Image.program img) "slow.cpp" then Hangs "1"
                   else Exits "3"
            end)
    (fun _ filename => filename)
    (fun path => path)
    (fun path => path).

Definition tc1 : TestCase.t := TestCase.mk 1 7 "3 2" ("5" ++ nl).
Definition tc2 : TestCase.t := TestCase.mk 2 7 "1 1" ("2" ++ nl).

(** An upload not yet stored, and the same once stored under key 10. *)
Definition upload (source : string) : Submission.t :=
  Submission.mk 0 true 3 7 false source false.

Definition saved (source : string) : Submission.t :=
  Submission.mk 10 false 3 7 false source false.

(** Two test cases, no submission yet; then with the upload stored. *)
Definition empty : World :=
  mkWorld [tc1; tc2] [] [] [] [] [] [] 0 [] 10.

Definition empty_saved (source : string) : World :=
  mkWorld [tc1; tc2] [saved source] [] [] [] [] [] 0 [] 11.

(** Submission 10, graded: its two rows, and one row of submission 11. *)
Definition stored : Submission.t := Submission.mk 10 false 3 7 false "old.cpp" true.

Definition row1 : TestOutput.t := TestOutput.mk 20 10 1 ("5" ++ nl).
Definition row2 : TestOutput.t := TestOutput.mk 21 10 2 "3".
Definition row3 : TestOutput.t := TestOutput.mk 22 11 1 ("5" ++ nl).

Definition graded : World :=
  mkWorld [tc1; tc2]
    [stored; Submission.mk 11 false 4 7 false "other.cpp" true]
    [row1; row2; row3]
    ["old.cpp"; "other.cpp"] [] [] [] 3 [] 30.

Definition graded_results : Results.t :=
  Results.mk true [shown ("5" ++ nl) tc1; shown "3" tc2].

(** The same submission with its source replaced, and the world once
    Django stored the replacement. *)
Definition replaced (source : string) : Submission.t :=
  with_source_file source stored.


(** Submission 12 passed test case 1 before test case 2 was added. *)
Definition slow : Submission.t := Submission.mk 12 false 5 7 false "slow.cpp" true.

Definition graded_slow : World :=
  mkWorld [tc1; tc2] [slow] [TestOutput.mk 23 12 1 ("5" ++ nl)]
    ["slow.cpp"] [] [] [] 1 [] 30.

(** The image built for [source] under [tag]. *)
Definition image (tag : nat) (source : string) : Image.t :=
  Image.mk tag source [(1, "3 2"); (2, "1 1")].

(** The world once the upload of [good.cpp] was saved and evaluated. *)
Definition evaluated : World :=
  Eval vm_compute in fst (save env (upload "good.cpp") None true empty).

End Sample.


(** ** Further sample data *)

Module Cases.

#[local] Open Scope string_scope.
#[local] Open Scope list_scope.
#[local] Open Scope nat_scope.

(** The surroundings of [Sample.env], where in addition the program of
    [binary.cpp] writes bytes that are not UTF-8 and a moved file goes
    under [moved/]. *)
Definition env : Env :=
  mkEnv
    (gxx Sample.env)
    (build_succeeds Sample.env)
    (fun img tc =>
       if String.eqb (Image.program img) "binary.cpp" then ExitsGarbled
       else container_run Sample.env img tc)
    (fun _ filename => ("moved/" ++ filename)%string)
    (fun path => path)
    (fun path => path).

(** Submission 10 graded, with the directory of an evaluation that did
    not end still there. *)
Definition leftover : World :=
  mkWorld [Sample.tc1; Sample.tc2] [Sample.stored]
    [Sample.row1; Sample.row2] ["old.cpp"] [10] [] [] 3 [] 30.

(** The image of a submission is built, no test was run yet. *)
Definition built (source : string) : World :=
  mkWorld [Sample.tc1; Sample.tc2] [Sample.saved source] [] [source]
    [10] [Sample.image 10 source] [] 0 [] 11.





(** A stored submission for an assignment without test cases, marked as
    compiling. *)
Definition orphan : Submission.t := Submission.mk 13 false 3 8 false "good.cpp" true.


(** A student, an instructor and a student whose account is switched off. *)
Definition student : User.t := User.mk "123456" true false.
Definition instructor : User.t := User.mk "admin" true true.
Definition inactive : User.t := User.mk "654321" false false.
Definition users : list User.t := [student; instructor; inactive].

(** Student 3, logged in, enrolled in the course of assignment 7. *)
Definition requester : Requester.t := Requester.mk 3 true false.

End Cases.




(** * Properties *)

Section Facts.

Variable E : Env.

(** ** Statements in general *)

Lemma bind_Ok {A B : Type} (c : M A) (k : A -> M B) w w' b :
  bind c k w = (w', Ok b) ->
  exists w1 a, c w = (w1, Ok a) /\ k a w1 = (w', Ok b).
Proof.
  unfold bind. destruct (c w) as [w1 [a | e]]; intros H.
  - exists w1, a. split; [reflexivity | exact H].
  - discriminate H.
Qed.

Lemma bind_run {A B : Type} (c : M A) (k : A -> M B) w w1 a :
  c w = (w1, Ok a) -> bind c k w = k a w1.
Proof. unfold bind. intros ->. reflexivity. Qed.

Lemma bind_raise {A B : Type} (c : M A) (k : A -> M B) w w1 e :
  c w = (w1, Raise e) -> bind c k w = (w1, Raise e).
Proof. unfold bind. intros ->. reflexivity. Qed.

Section Steps.

Context {R : World -> World -> Prop} {HR : PreOrder R}.

Lemma steps_ret {A : Type} (a : A) : steps R (ret a).
Proof. intros w w' r H. inversion H; subst. reflexivity. Qed.

Lemma steps_raise {A : Type} (e : exn) : steps R (@raise A e).
Proof. intros w w' r H. inversion H; subst. reflexivity. Qed.

Lemma steps_lift {A : Type} (o : outcome A) : steps R (lift o).
Proof. intros w w' r H. inversion H; subst. reflexivity. Qed.

Lemma steps_reads {A : Type} (f : World -> A) : steps R (reads f).
Proof. intros w w' r H. inversion H; subst. reflexivity. Qed.

Lemma steps_bind {A B : Type} (c : M A) (k : A -> M B) :
  steps R c -> (forall a, steps R (k a)) -> steps R (bind c k).
Proof.
  intros Hc Hk w w' r. unfold bind.
  destruct (c w) as [w1 [a | e]] eqn:Ec; intros H.
  - transitivity w1; [eapply Hc, Ec | eapply Hk, H].
  - inversion H; subst. eapply Hc, Ec.
Qed.

Lemma steps_try {A : Type} (c : M A) : steps R c -> steps R (try c).
Proof.
  intros Hc w w' r. unfold try.
  destruct (c w) as [w1 r1] eqn:Ec; intros H.
  inversion H; subst. eapply Hc, Ec.
Qed.

Lemma steps_for_each {A : Type} (l : list A) (body : A -> M unit) :
  (forall x, steps R (body x)) -> steps R (for_each l body).
Proof.
  intros Hb. induction l as [| x l IH]; simpl.
  - apply steps_ret.
  - apply steps_bind; [apply Hb | intros _; exact IH].
Qed.

Lemma steps_for_fold {A S : Type} (l : list A) (body : S -> A -> M S) :
  (forall s x, steps R (body s x)) -> forall s, steps R (for_fold l body s).
Proof.
  intros Hb. induction l as [| x l IH]; intros s; simpl.
  - apply steps_ret.
  - apply steps_bind; [apply Hb | intros s'; apply IH].
Qed.

End Steps.

(** ** The comparator *)

Lemma get_lt (s : string) (i : nat) :
  i < String.length s -> exists c, String.get i s = Some c.
Proof.
  revert i. induction s as [| c s IH]; intros i H; simpl in H.
  - lia.
  - destruct i as [| i]; simpl.
    + exists c. reflexivity.
    + apply IH. lia.
Qed.

Lemma get_ge (s : string) (i : nat) :
  String.length s <= i -> String.get i s = None.
Proof.
  revert i. induction s as [| c s IH]; intros i H; simpl in *.
  - reflexivity.
  - destruct i as [| i]; [lia |]. apply IH. lia.
Qed.

Lemma get_Some_lt (s : string) (i : nat) (c : ascii) :
  String.get i s = Some c -> i < String.length s.
Proof.
  intros H. destruct (Nat.lt_ge_cases i (String.length s)) as [Hl | Hg]; [exact Hl |].
  rewrite (get_ge _ Hg) in H. discriminate H.
Qed.

Lemma annotate_char_ok (actual expected : string) (i : nat) (a : ascii) :
  String.get i actual = Some a ->
  annotate_char actual expected i = Ok (annotation expected i a).
Proof.
  intros Ha. unfold annotate_char, annotation, index. rewrite Ha. simpl.
  destruct (Nat.leb_spec (String.length expected) i) as [Hle | Hlt]; simpl.
  - rewrite (get_ge _ Hle). reflexivity.
  - destruct (get_lt _ Hlt) as [e He]. rewrite He. reflexivity.
Qed.

Lemma omap_pointwise {A B : Type} (f : A -> outcome B) (g : A -> B) (l : list A) :
  (forall x, In x l -> f x = Ok (g x)) -> omap f l = Ok (map g l).
Proof.
  induction l as [| x l IH]; intros H; simpl.
  - reflexivity.
  - rewrite (H x (or_introl eq_refl)). simpl.
    rewrite IH; [reflexivity |]. intros y Hy. apply H. right. exact Hy.
Qed.

(** The comparator never raises: [or] shields the index into the expected
    text.  This is the result it builds. *)
Lemma compare_ok (actual : string) (tc : TestCase.t) :
  compare actual tc =
  Ok (Result.mk (String.eqb actual (TestCase.output tc)) (TestCase.input tc)
        (map (fun i => annotation (TestCase.output tc) i (char_at actual i))
             (seq 0 (String.length actual)))
        (Z.of_nat (String.length (TestCase.output tc))
         - Z.of_nat (String.length actual))).
Proof.
  unfold compare.
  rewrite omap_pointwise
    with (g := fun i => annotation (TestCase.output tc) i (char_at actual i)).
  - reflexivity.
  - intros i Hi. apply in_seq in Hi. destruct Hi as [_ Hi]. simpl in Hi.
    destruct (get_lt _ Hi) as [a Ha]. unfold char_at. rewrite Ha.
    apply annotate_char_ok. exact Ha.
Qed.

#[local] Instance same_PreOrder {A : Type} (f : World -> A) : PreOrder (same f).
Proof.
  split.
  - intros w. reflexivity.
  - intros w1 w2 w3 H12 H23. unfold same in *. congruence.
Qed.

#[local] Instance grows_PreOrder : PreOrder grows.
Proof.
  split.
  - intros w. apply incl_refl.
  - intros w1 w2 w3. apply incl_tran.
Qed.

#[local] Instance ahead_PreOrder : PreOrder ahead.
Proof.
  split.
  - intros w. apply Nat.le_refl.
  - intros w1 w2 w3. apply Nat.le_trans.
Qed.

(** Case analysis on the tests a primitive makes. *)
Ltac cases_in H :=
  repeat
    match type of H with
    | context [match ?x with _ => _ end] => destruct x eqn:?
    end.

(** A primitive, unfolded: settle every branch by computation. *)
Ltac primitive :=
  let w := fresh "w" in
  let w' := fresh "w'" in
  let r := fresh "r" in
  let H := fresh "H" in
  intros w w' r H;
  cbv beta zeta delta
    [testcase_set testoutputs_delete testoutput_get testoutput_create
     submission_get on_commit makedirs rmtree check_call_gxx log_write
     images_build images_remove containers_create container_start
     container_wait container_logs container_remove delete_source_file
     move_submission_file modify reads ret raise lift set_state] in H;
  cases_in H; inversion H; subst; clear H;
  unfold same, grows, ahead; simpl;
  auto using incl_refl, incl_appl with arith.

(** A compound statement: follow its structure down to the primitives. *)
Ltac frame :=
  repeat
    first
      [ apply steps_ret | apply steps_raise | apply steps_lift
      | apply steps_reads | apply steps_try
      | apply steps_for_each; intros
      | apply steps_for_fold; intros
      | apply steps_bind; [| intros]
      | match goal with
        | |- steps _ (match ?x with _ => _ end) => destruct x
        end
      | solve [primitive] ].

Lemma single_test_same_testcases self tag tc :
  steps (same testcases) (single_test E self tag tc).
Proof. unfold single_test. frame. Qed.

(** ** What the statements leave untouched *)

Lemma single_test_same_submissions self tag tc :
  steps (same submissions) (single_test E self tag tc).
Proof. unfold single_test. frame. Qed.

Lemma single_test_grows self tag tc : steps grows (single_test E self tag tc).
Proof. unfold single_test. frame. Qed.

Lemma single_test_ahead self tag tc : steps ahead (single_test E self tag tc).
Proof. unfold single_test. frame. Qed.

Lemma docker_prep_same {A : Type} (f : World -> A) self :
  (forall x w, f (set_contexts x w) = f w) ->
  (forall x w, f (set_images x w) = f w) ->
  steps (same f) (docker_prep E self).
Proof.
  intros Hc Hi. unfold docker_prep. frame.
  all: intros w w' r H;
    cbv beta zeta delta [makedirs rmtree images_build] in H;
    cases_in H; inversion H; subst; unfold same; auto.
Qed.

Lemma docker_cleanup_same {A : Type} (f : World -> A) self tag :
  (forall x w, f (set_contexts x w) = f w) ->
  (forall x w, f (set_images x w) = f w) ->
  steps (same f) (docker_cleanup self tag).
Proof.
  intros Hc Hi. unfold docker_cleanup. frame.
  all: intros w w' r H;
    cbv beta zeta delta [rmtree images_remove] in H;
    cases_in H; inversion H; subst; unfold same; auto.
Qed.

(** A test that returns has stored what it returns, under the next key. *)
Lemma single_test_Ok self tag tc w w' out :
  single_test E self tag tc w = (w', Ok out) ->
  testoutputs w' =
    testoutputs w ++ [TestOutput.mk (fresh w) (Submission.pk self) (TestCase.pk tc) out] /\
  fresh w' = S (fresh w) /\
  started w' = S (started w).
Proof.
  intros H. unfold single_test in H.
  repeat
    (apply bind_Ok in H;
     let w1 := fresh "w" in
     let a := fresh "a" in
     let H1 := fresh "H" in
     destruct H as (w1 & a & H1 & H)).
  inversion H; subst; clear H.
  cbv beta zeta delta
    [testoutput_create log_write containers_create container_start
     container_wait container_logs container_remove modify set_state] in *.
  repeat
    match goal with
    | H : context [match ?x with _ => _ end] |- _ => destruct x eqn:?
    end;
  repeat
    match goal with
    | H : (_, _) = (_, _) |- _ => inversion H; subst; clear H
    end;
  simpl; auto.
Qed.

(** ** The lazy evaluation, when it returns *)

Lemma of_pair_true s t o :
  of_pair s t o = true ->
  TestOutput.submission o = s /\ TestOutput.testcase o = t.
Proof.
  unfold of_pair. intros H. apply andb_prop in H. destruct H as [H1 H2].
  apply Nat.eqb_eq in H1, H2. auto.
Qed.

Lemma testoutput_get_Ok s t w w' o :
  testoutput_get s t w = (w', Ok o) ->
  w' = w /\ filter (of_pair s t) (testoutputs w) = [o].
Proof.
  unfold testoutput_get. intros H.
  destruct (filter (of_pair s t) (testoutputs w)) as [| o1 [| o2 l]] eqn:Ef;
    inversion H; subst. auto.
Qed.

Lemma testoutput_get_DoesNotExist s t w w' :
  testoutput_get s t w = (w', Raise DoesNotExist) ->
  w' = w /\ filter (of_pair s t) (testoutputs w) = [].
Proof.
  unfold testoutput_get. intros H.
  destruct (filter (of_pair s t) (testoutputs w)) as [| o1 [| o2 l]] eqn:Ef;
    inversion H; subst. auto.
Qed.

Lemma answers_grows self w w' tc r :
  grows w w' -> answers self w tc r -> answers self w' tc r.
Proof.
  intros Hg (o & Hin & Hs & Ht & Hc). exists o. auto.
Qed.

Lemma docker_prep_same_testoutputs self : steps (same testoutputs) (docker_prep E self).
Proof. apply docker_prep_same; reflexivity. Qed.

Lemma docker_cleanup_same_testoutputs self tag :
  steps (same testoutputs) (docker_cleanup self tag).
Proof. apply docker_cleanup_same; reflexivity. Qed.

Lemma same_testoutputs_grows {A : Type} (c : M A) :
  steps (same testoutputs) c -> steps grows c.
Proof.
  intros H w w' r Hc. unfold grows. rewrite (H _ _ _ Hc). apply incl_refl.
Qed.

Lemma test_results_body_grows self l tc : steps grows (test_results_body E self l tc).
Proof.
  unfold test_results_body. frame.
  all: try apply single_test_grows.
  all: apply same_testoutputs_grows, docker_prep_same_testoutputs.
Qed.

Lemma test_results_body_Ok self l tc w w' l' :
  test_results_body E self l tc w = (w', Ok l') ->
  exists r, tests l' = tests l ++ [r] /\ answers self w' tc r.
Proof.
  intros H. unfold test_results_body in H.
  apply bind_Ok in H as (w1 & got & Hget & H).
  apply bind_Ok in H as (w2 & [l2 out] & Hres & H).
  apply bind_Ok in H as (w3 & r & Hcmp & H).
  injection H as Hw Hl. injection Hcmp as Hw3 Hr. simpl in Hl, Hr.
  rewrite <- Hw, <- Hw3, <- Hl. clear Hw Hw3 Hl w3 w' l'. simpl.
  unfold try in Hget.
  destruct (testoutput_get (Submission.pk self) (TestCase.pk tc) w) as [wg rg] eqn:Eg.
  injection Hget as Hwg Hrg. rewrite Hwg in Eg. clear Hwg wg. rewrite Hrg in Eg.
  clear Hrg rg.
  exists r. destruct got as [o | e].
  - (* the row is there *)
    injection Hres as Hw2 Hl2 Hout.
    apply testoutput_get_Ok in Eg. destruct Eg as [Hw1 Ef].
    rewrite <- Hw2, <- Hl2, Hw1. split; [reflexivity |].
    exists o.
    assert (Hin : In o (filter (of_pair (Submission.pk self) (TestCase.pk tc))
                          (testoutputs w))) by (rewrite Ef; left; reflexivity).
    apply filter_In in Hin. destruct Hin as [Hin Hp].
    apply of_pair_true in Hp. destruct Hp as [Hs Ht].
    rewrite Hout. auto.
  - (* no row: the test is run *)
    destruct e; try (inversion Hres; fail).
    apply bind_Ok in Hres as (w4 & l4 & Hprep & Hres).
    apply bind_Ok in Hres as (w5 & out5 & Hrun & Hres).
    injection Hres as Hw5 Hl4 Hout5.
    apply single_test_Ok in Hrun. destruct Hrun as (Hto & _ & _).
    rewrite <- Hw5, <- Hl4. split.
    + destruct (docker_client l).
      * injection Hprep as _ Hl. rewrite <- Hl. reflexivity.
      * apply bind_Ok in Hprep as (w6 & tag & _ & Hprep).
        injection Hprep as _ Hl. rewrite <- Hl. reflexivity.
    + exists (TestOutput.mk (fresh w4) (Submission.pk self) (TestCase.pk tc) out).
      rewrite Hto, <- Hout5. simpl. repeat split; auto.
      * apply in_or_app. right. left. reflexivity.
      * rewrite Hout5. exact Hr.
Qed.

Lemma test_results_loop_Ok self tcs : forall l w w' l',
  for_fold tcs (test_results_body E self) l w = (w', Ok l') ->
  exists rs, tests l' = tests l ++ rs /\ Forall2 (answers self w') tcs rs.
Proof.
  induction tcs as [| tc tcs IH]; intros l w w' l' H; simpl in H.
  - inversion H; subst. exists []. rewrite app_nil_r. auto.
  - apply bind_Ok in H as (w0 & l0 & H0 & H).
    apply test_results_body_Ok in H0. destruct H0 as (r & Hr & Ha).
    assert (Hg : grows w0 w').
    { eapply (steps_for_fold (R := grows)); [| exact H].
      intros. apply test_results_body_grows. }
    apply IH in H. destruct H as (rs & Hrs & Hall).
    exists (r :: rs). split.
    + rewrite Hrs, Hr, <- app_assoc. reflexivity.
    + constructor; [eapply answers_grows; eauto | exact Hall].
Qed.

(** The results that [test_results] returns: none for a submission known
    not to compile, otherwise one per test case of the assignment, in
    order, each answering from a row the table holds afterwards. *)
Lemma test_results_Ok self w w' res :
  test_results E self w = (w', Ok res) ->
  Results.compiles res = Submission.compiles self /\
  (Results.tests res = [] \/
   Forall2 (answers self w') (testcases_of (Submission.assignment self) w)
     (Results.tests res)).
Proof.
  unfold test_results. intros H.
  destruct (negb (Submission.adding self) && negb (Submission.compiles self)).
  - inversion H; subst. simpl. auto.
  - apply bind_Ok in H as (w0 & tcs & H0 & H).
    apply bind_Ok in H as (w1 & l1 & H1 & H).
    apply bind_Ok in H as (w2 & u & H2 & H).
    inversion H; subst; clear H. simpl. split; [reflexivity |]. right.
    unfold testcase_set, reads in H0. inversion H0; subst; clear H0.
    assert (Hg : grows w1 w').
    { destruct (docker_client l1).
      - eapply same_testoutputs_grows;
          [apply docker_cleanup_same_testoutputs | exact H2].
      - inversion H2; subst. reflexivity. }
    apply test_results_loop_Ok in H1. destruct H1 as (rs & Hrs & Hall).
    simpl in Hrs. subst.
    eapply Forall2_impl; [| exact Hall].
    intros tc r Ha. eapply answers_grows; eauto.
Qed.

Lemma compare_passed actual tc r :
  compare actual tc = Ok r ->
  (Result.passed r = true <-> actual = TestCase.output tc).
Proof.
  rewrite compare_ok. intros H. injection H as <-. simpl. apply String.eqb_eq.
Qed.

Lemma compare_annotated actual tc r :
  compare actual tc = Ok r ->
  List.length (Result.output r) = String.length actual /\
  (forall i, i < String.length actual ->
     exists a x,
       String.get i actual = Some a /\
       nth_error (Result.output r) i = Some x /\
       Result.char x = a /\
       (Result.incorrect x = true <->
        String.length (TestCase.output tc) <= i \/
        String.get i (TestCase.output tc) <> Some a) /\
       (Result.newline x = true <-> a = newline_char)) /\
  Result.missing_output r =
    (Z.of_nat (String.length (TestCase.output tc)) - Z.of_nat (String.length actual))%Z.
Proof.
  rewrite compare_ok. intros H. injection H as <-. simpl.
  split; [| split]; [| | reflexivity].
  - rewrite length_map, length_seq. reflexivity.
  - intros i Hi. destruct (get_lt _ Hi) as [a Ha].
    exists a, (annotation (TestCase.output tc) i a).
    split; [exact Ha |]. split; [| split; [reflexivity | split]].
    + rewrite nth_error_map, nth_error_seq.
      destruct (Nat.ltb_spec i (String.length actual)) as [_ | Hge]; [| lia].
      simpl. unfold char_at. rewrite Ha. reflexivity.
    + simpl. destruct (String.get i (TestCase.output tc)) as [e |] eqn:Ee.
      * rewrite negb_true_iff. rewrite Ascii.eqb_neq. split.
        -- intros Hne. right. congruence.
        -- intros [Hle | Hne].
           ++ apply get_Some_lt in Ee. lia.
           ++ congruence.
      * split; [| reflexivity]. intros _. right. discriminate.
    + simpl. apply Ascii.eqb_eq.
Qed.

Lemma Forall2_nth_error {A B : Type} (P : A -> B -> Prop) (l : list A) (l' : list B) :
  Forall2 P l l' ->
  forall n y, nth_error l' n = Some y -> exists x, nth_error l n = Some x /\ P x y.
Proof.
  induction 1 as [| x y l l' Hxy _ IH]; intros n z Hn.
  - destruct n; discriminate Hn.
  - destruct n as [| n]; simpl in *.
    + injection Hn as <-. exists x. auto.
    + apply IH. exact Hn.
Qed.

Lemma test_results_nth self w w' res n r :
  test_results E self w = (w', Ok res) ->
  nth_error (Results.tests res) n = Some r ->
  exists tc,
    nth_error (testcases_of (Submission.assignment self) w) n = Some tc /\
    answers self w' tc r.
Proof.
  intros H Hn. apply test_results_Ok in H. destruct H as [_ [Hnil | Hall]].
  - rewrite Hnil in Hn. destruct n; discriminate Hn.
  - eapply Forall2_nth_error; eauto.
Qed.

(** C1. Every result that [test_results] returns belongs to a test case
    of the assignment (the one at the same position) and to a row of
    [TestOutput] held for the submission and that test case; its [passed]
    is true exactly when the output of the row is the expected output of
    the test case, character for character. *)
Theorem passed_iff_outputs_equal self w w' res n r :
  test_results E self w = (w', Ok res) ->
  nth_error (Results.tests res) n = Some r ->
  exists tc o,
    nth_error (testcases_of (Submission.assignment self) w) n = Some tc /\
    In o (testoutputs w') /\
    TestOutput.submission o = Submission.pk self /\
    TestOutput.testcase o = TestCase.pk tc /\
    (Result.passed r = true <-> TestOutput.output o = TestCase.output tc).
Proof.
  intros H Hn.
  destruct (test_results_nth _ _ _ H Hn) as (tc & Htc & o & Hin & Hs & Ht & Hc).
  exists tc, o. repeat split; auto; apply (compare_passed _ _ Hc).
Qed.

(** C5. For every result that [test_results] returns, with [actual] the
    output of the row it answers from and [expected] the expected output of
    its test case: the annotated output has one entry per character of
    [actual]; entry [i] carries [actual[i]], is [incorrect] exactly when
    [i >= len(expected)] or [actual[i] != expected[i]], and is [newline]
    exactly when [actual[i]] is the newline character; [missing_output] is
    [len(expected) - len(actual)] as a signed integer. *)
Theorem annotation_by_position self w w' res n r :
  test_results E self w = (w', Ok res) ->
  nth_error (Results.tests res) n = Some r ->
  exists tc o,
    nth_error (testcases_of (Submission.assignment self) w) n = Some tc /\
    In o (testoutputs w') /\
    TestOutput.submission o = Submission.pk self /\
    TestOutput.testcase o = TestCase.pk tc /\
    List.length (Result.output r) = String.length (TestOutput.output o) /\
    (forall i, i < String.length (TestOutput.output o) ->
       exists a x,
         String.get i (TestOutput.output o) = Some a /\
         nth_error (Result.output r) i = Some x /\
         Result.char x = a /\
         (Result.incorrect x = true <->
          String.length (TestCase.output tc) <= i \/
          String.get i (TestCase.output tc) <> Some a) /\
         (Result.newline x = true <-> a = newline_char)) /\
    Result.missing_output r =
      (Z.of_nat (String.length (TestCase.output tc))
       - Z.of_nat (String.length (TestOutput.output o)))%Z.
Proof.
  intros H Hn.
  destruct (test_results_nth _ _ _ H Hn) as (tc & Htc & o & Hin & Hs & Ht & Hc).
  exists tc, o. destruct (compare_annotated _ _ Hc) as (Hlen & Hpos & Hmiss).
  repeat split; auto.
Qed.

#[local] Instance keeps_PreOrder (P : World -> Prop) : PreOrder (keeps P).
Proof.
  split.
  - intros w H. exact H.
  - intros w1 w2 w3 H12 H23 H. apply H23, H12, H.
Qed.

(** ** More of what the statements leave untouched *)

Lemma docker_prep_same_testcases self : steps (same testcases) (docker_prep E self).
Proof. apply docker_prep_same; reflexivity. Qed.

Lemma docker_prep_same_submissions self : steps (same submissions) (docker_prep E self).
Proof. apply docker_prep_same; reflexivity. Qed.

Lemma docker_prep_same_fresh self : steps (same fresh) (docker_prep E self).
Proof. apply docker_prep_same; reflexivity. Qed.

Lemma docker_prep_same_started self : steps (same started) (docker_prep E self).
Proof. apply docker_prep_same; reflexivity. Qed.

Lemma docker_prep_same_containers self : steps (same containers) (docker_prep E self).
Proof. apply docker_prep_same; reflexivity. Qed.

Lemma docker_cleanup_same_testcases self tag :
  steps (same testcases) (docker_cleanup self tag).
Proof. apply docker_cleanup_same; reflexivity. Qed.

Lemma docker_cleanup_same_submissions self tag :
  steps (same submissions) (docker_cleanup self tag).
Proof. apply docker_cleanup_same; reflexivity. Qed.

Lemma docker_cleanup_same_fresh self tag : steps (same fresh) (docker_cleanup self tag).
Proof. apply docker_cleanup_same; reflexivity. Qed.

Lemma docker_cleanup_same_started self tag :
  steps (same started) (docker_cleanup self tag).
Proof. apply docker_cleanup_same; reflexivity. Qed.

Lemma docker_cleanup_same_containers self tag :
  steps (same containers) (docker_cleanup self tag).
Proof. apply docker_cleanup_same; reflexivity. Qed.

Lemma same_fresh_ahead {A : Type} (c : M A) : steps (same fresh) c -> steps ahead c.
Proof.
  intros H w w' r Hc. unfold ahead. rewrite (H _ _ _ Hc). apply Nat.le_refl.
Qed.

Lemma full_test_same_testcases self : steps (same testcases) (full_test E self).
Proof.
  unfold full_test. frame.
  all: first [ apply docker_prep_same_testcases
             | apply single_test_same_testcases
             | apply docker_cleanup_same_testcases ].
Qed.

Lemma full_test_same_submissions self : steps (same submissions) (full_test E self).
Proof.
  unfold full_test. frame.
  all: first [ apply docker_prep_same_submissions
             | apply single_test_same_submissions
             | apply docker_cleanup_same_submissions ].
Qed.

Lemma full_test_ahead self : steps ahead (full_test E self).
Proof.
  unfold full_test. frame.
  all: first [ apply same_fresh_ahead, docker_prep_same_fresh
             | apply single_test_ahead
             | apply same_fresh_ahead, docker_cleanup_same_fresh ].
Qed.

Lemma test_results_same_testcases self : steps (same testcases) (test_results E self).
Proof.
  unfold test_results, test_results_body. frame.
  all: first [ apply docker_prep_same_testcases
             | apply single_test_same_testcases
             | apply docker_cleanup_same_testcases ].
Qed.

Lemma test_results_same_submissions self :
  steps (same submissions) (test_results E self).
Proof.
  unfold test_results, test_results_body. frame.
  all: first [ apply docker_prep_same_submissions
             | apply single_test_same_submissions
             | apply docker_cleanup_same_submissions ].
Qed.

Lemma test_results_ahead self : steps ahead (test_results E self).
Proof.
  unfold test_results, test_results_body. frame.
  all: first [ apply same_fresh_ahead, docker_prep_same_fresh
             | apply single_test_ahead
             | apply same_fresh_ahead, docker_cleanup_same_fresh ].
Qed.

Lemma handler_same {A : Type} (f : World -> A) instance update_fields :
  (forall x w, f (set_student_files x w) = f w) ->
  steps (same f) (move_or_delete_submission_file E instance update_fields).
Proof.
  intros Hf. unfold move_or_delete_submission_file. frame.
  all: intros w w' r H;
    cbv beta zeta delta [delete_source_file move_submission_file on_commit] in H;
    cases_in H; inversion H; subst; unfold same; auto.
Qed.

Lemma model_save_same {A : Type} (f : World -> A) self update_fields :
  (forall x w, f (set_student_files x w) = f w) ->
  (forall x w, f (set_submissions x w) = f w) ->
  (forall x w, f (set_fresh x w) = f w) ->
  steps (same f) (model_save E self update_fields).
Proof.
  intros H1 H2 H3. unfold model_save.
  destruct update_fields as [[| fd fs] |].
  - apply steps_ret.
  - apply steps_bind; [apply handler_same, H1 |].
    intros a w w' r H. cases_in H; inversion H; subst; unfold same;
      rewrite ?H3, ?H2; auto.
  - apply steps_bind; [apply handler_same, H1 |].
    intros a w w' r H. cases_in H; inversion H; subst; unfold same;
      rewrite ?H3, ?H2; auto.
Qed.

Lemma model_save_ahead self update_fields : steps ahead (model_save E self update_fields).
Proof.
  unfold model_save.
  destruct update_fields as [[| fd fs] |].
  - apply steps_ret.
  - apply steps_bind; [apply same_fresh_ahead, handler_same; reflexivity |].
    intros a w w' r H. cases_in H; inversion H; subst; unfold ahead; simpl; auto.
  - apply steps_bind; [apply same_fresh_ahead, handler_same; reflexivity |].
    intros a w w' r H. cases_in H; inversion H; subst; unfold ahead; simpl; auto.
Qed.

Lemma save_same_testcases self update_fields run_tests :
  steps (same testcases) (save E self update_fields run_tests).
Proof.
  unfold save. frame.
  all: first [ apply model_save_same; reflexivity
             | apply handler_same; reflexivity
             | apply full_test_same_testcases ].
Qed.

Lemma save_ahead self update_fields run_tests :
  steps ahead (save E self update_fields run_tests).
Proof.
  unfold save. frame.
  all: first [ apply model_save_ahead
             | apply same_fresh_ahead, handler_same; reflexivity
             | apply full_test_ahead ].
Qed.

(** ** Rows written by the eager loop *)

Lemma bind_Raise {A B : Type} (c : M A) (k : A -> M B) w w' e :
  bind c k w = (w', Raise e) ->
  c w = (w', Raise e) \/ exists w1 a, c w = (w1, Ok a) /\ k a w1 = (w', Raise e).
Proof.
  unfold bind. destruct (c w) as [w1 [a | e1]]; intros H.
  - right. exists w1, a. auto.
  - left. injection H as -> ->. reflexivity.
Qed.

(** A test that raises has stored nothing. *)
Lemma single_test_Raise self tag tc w w' e :
  single_test E self tag tc w = (w', Raise e) ->
  testoutputs w' = testoutputs w.
Proof.
  intros H. unfold single_test in H.
  repeat
    match goal with
    | H : bind _ _ _ = (_, Raise _) |- _ =>
        apply bind_Raise in H; destruct H as [H | (? & ? & ? & H)]
    end;
  cbv beta zeta delta
    [testoutput_create log_write containers_create container_start
     container_wait container_logs container_remove modify set_state ret] in *;
  repeat
    match goal with
    | H : context [match ?x with _ => _ end] |- _ => destruct x eqn:?
    end;
  repeat
    match goal with
    | H : (_, _) = (_, _) |- _ => inversion H; subst; clear H
    end;
  simpl; auto.
Qed.

(** The loop of [full_test] appends one row per test case it got
    through, and gets through all of them unless it raises. *)
Lemma full_test_loop self tag tcs : forall w w' r,
  for_each tcs (fun testcase => single_test E self tag testcase ;;; ret tt) w = (w', r) ->
  exists done rest news,
    tcs = done ++ rest /\
    testoutputs w' = testoutputs w ++ news /\
    rows_for self done news /\
    (r = Ok tt -> rest = []) /\
    (r = Ok tt -> started w' = started w + List.length tcs).
Proof.
  induction tcs as [| tc tcs IH]; intros w w' r H; simpl in H.
  - injection H as <- <-. exists [], [], []. simpl. rewrite app_nil_r.
    repeat split; auto. constructor.
  - unfold bind at 1 in H.
    destruct ((single_test E self tag tc ;;; ret tt) w) as [w1 [[] | e]] eqn:E1.
    + apply bind_Ok in E1 as (w2 & out & Hrun & Hret).
      injection Hret as ->. apply single_test_Ok in Hrun.
      destruct Hrun as (Hto & _ & Hst).
      apply IH in H. destruct H as (done & rest & news & -> & Hw' & Hrows & Hrest & Hcount).
      exists (tc :: done), rest,
        (TestOutput.mk (fresh w) (Submission.pk self) (TestCase.pk tc) out :: news).
      split; [reflexivity |]. split; [| split; [| split]].
      * rewrite Hw', Hto, <- app_assoc. reflexivity.
      * constructor; [simpl; auto | exact Hrows].
      * exact Hrest.
      * intros Hr. rewrite (Hcount Hr), Hst. simpl. lia.
    + injection H as <- <-.
      apply bind_Raise in E1. destruct E1 as [Hrun | (w2 & out & _ & Hret)];
        [| discriminate Hret].
      apply single_test_Raise in Hrun.
      exists [], (tc :: tcs), []. simpl. rewrite app_nil_r.
      repeat split; auto; try discriminate. constructor.
Qed.

(** ** One row per pair *)

Lemma filter_filter_length {A : Type} (p q : A -> bool) (l : list A) :
  List.length (filter p (filter q l)) <= List.length (filter p l).
Proof.
  induction l as [| x l IH]; simpl; [lia |].
  destruct (q x); simpl; destruct (p x); simpl; lia.
Qed.

Lemma unique_rows_filter (q : TestOutput.t -> bool) l :
  unique_rows l -> unique_rows (filter q l).
Proof.
  intros H s t. eapply Nat.le_trans; [apply filter_filter_length | apply H].
Qed.

Lemma filter_none {A : Type} (p : A -> bool) (l : list A) :
  (forall x, In x l -> p x = false) -> filter p l = [].
Proof.
  induction l as [| x l IH]; intros H; simpl; [reflexivity |].
  rewrite (H x (or_introl eq_refl)). apply IH. intros y Hy. apply H. right. exact Hy.
Qed.

Lemma of_pair_false_l s t o : TestOutput.submission o <> s -> of_pair s t o = false.
Proof.
  intros H. unfold of_pair. apply Nat.eqb_neq in H. rewrite H. reflexivity.
Qed.

Lemma of_pair_false_r s t o : TestOutput.testcase o <> t -> of_pair s t o = false.
Proof.
  intros H. unfold of_pair. apply Nat.eqb_neq in H. rewrite H. apply andb_false_r.
Qed.

Lemma unique_rows_add l k s t out :
  unique_rows l -> filter (of_pair s t) l = [] ->
  unique_rows (l ++ [TestOutput.mk k s t out]).
Proof.
  intros Hu Hnone s' t'. rewrite filter_app, length_app. simpl.
  destruct (of_pair s' t' (TestOutput.mk k s t out)) eqn:Ep; simpl.
  - apply of_pair_true in Ep. simpl in Ep. destruct Ep as [<- <-].
    rewrite Hnone. simpl. lia.
  - specialize (Hu s' t'). lia.
Qed.

Lemma at_most_one_by_key (news : list TestOutput.t) s t :
  NoDup (map TestOutput.testcase news) ->
  List.length (filter (of_pair s t) news) <= 1.
Proof.
  induction news as [| o news IH]; intros Hnd; simpl; [lia |].
  inversion Hnd as [| k ks Hnotin Hnd']; subst.
  destruct (of_pair s t o) eqn:Ep; [| apply IH, Hnd'].
  apply of_pair_true in Ep. destruct Ep as [_ Ht].
  rewrite filter_none; [simpl; lia |].
  intros o' Ho'. apply of_pair_false_r. intros Heq.
  apply Hnotin. rewrite Ht, <- Heq. apply in_map. exact Ho'.
Qed.

Lemma unique_rows_app l news s :
  unique_rows l ->
  (forall o, In o l -> TestOutput.submission o <> s) ->
  Forall (fun o => TestOutput.submission o = s) news ->
  NoDup (map TestOutput.testcase news) ->
  unique_rows (l ++ news).
Proof.
  intros Hu Hl Hnews Hnd s' t'. rewrite filter_app, length_app.
  destruct (Nat.eq_dec s' s) as [-> | Hne].
  - rewrite (filter_none (of_pair s t') l).
    + simpl. apply at_most_one_by_key, Hnd.
    + intros o Ho. apply of_pair_false_l. apply Hl, Ho.
  - rewrite (filter_none (of_pair s' t') news).
    + specialize (Hu s' t'). simpl. lia.
    + intros o Ho. apply of_pair_false_l. rewrite Forall_forall in Hnews.
      rewrite (Hnews o Ho). auto.
Qed.

Lemma rows_for_keys self done news :
  rows_for self done news ->
  Forall (fun o => TestOutput.submission o = Submission.pk self) news /\
  map TestOutput.testcase news = map TestCase.pk done.
Proof.
  induction 1 as [| tc o done news [Hs Ht] _ [IH1 IH2]]; simpl.
  - split; [constructor | reflexivity].
  - split; [constructor; assumption | congruence].
Qed.

Lemma distinct_keys_filter (keep : TestCase.t -> bool) (tcs : list TestCase.t) :
  NoDup (map TestCase.pk tcs) -> NoDup (map TestCase.pk (filter keep tcs)).
Proof.
  intros Hnd. induction tcs as [| tc tcs IH]; simpl; [constructor |].
  simpl in Hnd. apply NoDup_cons_iff in Hnd. destruct Hnd as [Hnotin Hnd].
  destruct (keep tc); simpl; [| apply IH, Hnd].
  apply NoDup_cons_iff. split; [| apply IH, Hnd].
  intros Hin. apply Hnotin. apply in_map_iff in Hin. destruct Hin as (tc' & Hpk & Hin).
  apply filter_In in Hin. rewrite <- Hpk. apply in_map. apply Hin.
Qed.

(** The eager evaluation keeps one row per pair, returning or raising:
    it first drops the rows of the submission, then writes at most one
    row per test case. *)
Lemma full_test_unique self w w' r :
  NoDup (map TestCase.pk (testcases w)) ->
  unique_pairs w ->
  full_test E self w = (w', r) ->
  unique_pairs w'.
Proof.
  intros Hnd Hu H. unfold full_test in H.
  unfold bind at 1 in H. unfold testoutputs_delete at 1, modify in H.
  set (w0 := set_testoutputs
               (filter (fun o => negb (TestOutput.submission o =? Submission.pk self))
                       (testoutputs w)) w) in H.
  assert (Hu0 : unique_rows (testoutputs w0)) by (apply unique_rows_filter, Hu).
  assert (Hno : forall o, In o (testoutputs w0) ->
                          TestOutput.submission o <> Submission.pk self).
  { intros o Ho. simpl in Ho. apply filter_In in Ho. destruct Ho as [_ Ho].
    apply negb_true_iff, Nat.eqb_neq in Ho. exact Ho. }
  assert (Htc0 : testcases w0 = testcases w) by reflexivity.
  clearbody w0.
  unfold bind at 1 in H.
  destruct (docker_prep E self w0) as [w1 [tag | e]] eqn:Eprep.
  - assert (Hto1 : same testoutputs w0 w1)
      by (eapply docker_prep_same_testoutputs; exact Eprep).
    assert (Htc1 : same testcases w0 w1)
      by (eapply docker_prep_same_testcases; exact Eprep).
    unfold same in Hto1, Htc1.
    destruct tag as [tag |].
    + unfold bind at 1 in H. unfold testcase_set at 1, reads in H.
      unfold bind at 1 in H.
      match type of H with
      | context [for_each ?l ?b w1] => destruct (for_each l b w1) as [w2 r2] eqn:Eloop
      end.
      apply full_test_loop in Eloop.
      destruct Eloop as (done & rest & news & Hsplit & Hto2 & Hrows & _ & _).
      apply rows_for_keys in Hrows. destruct Hrows as [Hsub Hkeys].
      assert (Hu2 : unique_rows (testoutputs w2)).
      { rewrite Hto2, Hto1.
        apply unique_rows_app with (s := Submission.pk self); auto.
        rewrite Hkeys.
        assert (Hnd1 : NoDup (map TestCase.pk (done ++ rest))).
        { rewrite <- Hsplit, Htc1, Htc0. apply distinct_keys_filter, Hnd. }
        rewrite map_app in Hnd1. apply NoDup_app_remove_r in Hnd1. exact Hnd1. }
      destruct r2 as [[] | e2].
      * unfold bind at 1 in H.
        destruct (docker_cleanup self (Some tag) w2) as [w3 r3] eqn:Eclean.
        assert (Hto3 : same testoutputs w2 w3)
          by (eapply docker_cleanup_same_testoutputs; exact Eclean).
        unfold same in Hto3.
        assert (Hw' : testoutputs w' = testoutputs w3)
          by (destruct r3; injection H as <- _; reflexivity).
        unfold unique_pairs. rewrite Hw', Hto3. exact Hu2.
      * injection H as <- _. exact Hu2.
    + injection H as <- _. unfold unique_pairs. rewrite Hto1. exact Hu0.
  - assert (Hto1 : same testoutputs w0 w1)
      by (eapply docker_prep_same_testoutputs; exact Eprep).
    unfold same in Hto1.
    injection H as <- _. unfold unique_pairs. rewrite Hto1. exact Hu0.
Qed.

Lemma testoutput_get_world s t w w' r : testoutput_get s t w = (w', r) -> w' = w.
Proof.
  unfold testoutput_get. intros H.
  destruct (filter (of_pair s t) (testoutputs w)) as [| o1 [| o2 l]];
    injection H as <- _; reflexivity.
Qed.

(** One turn of the lazy loop keeps one row per pair, returning or
    raising: it writes a row only after [get] found none. *)
Lemma test_results_body_unique self l tc :
  steps (keeps unique_pairs) (test_results_body E self l tc).
Proof.
  intros w w' r H Hu. unfold test_results_body in H.
  unfold bind at 1 in H. unfold try in H.
  destruct (testoutput_get (Submission.pk self) (TestCase.pk tc) w) as [wg rg] eqn:Eg.
  assert (Hwg : wg = w) by (eapply testoutput_get_world; exact Eg). subst wg.
  assert (Hsame : forall (c : M (locals * string)),
             steps (same testoutputs) c ->
             (l_out <- c ;;
              result <- lift (compare (snd l_out) tc) ;;
              ret (mk_locals (docker_client (fst l_out)) (image_tag (fst l_out))
                     (tests (fst l_out) ++ [result]))) w = (w', r) ->
             unique_pairs w').
  { intros c Hc Hrun.
    assert (Hs : same testoutputs w w').
    { revert Hrun. generalize r. generalize w'. generalize w.
      change (steps (same testoutputs)
                (l_out <- c ;;
                 result <- lift (compare (snd l_out) tc) ;;
                 ret (mk_locals (docker_client (fst l_out)) (image_tag (fst l_out))
                        (tests (fst l_out) ++ [result])))).
      frame. exact Hc. }
    unfold unique_pairs. rewrite Hs. exact Hu. }
  destruct rg as [o | e].
  - eapply Hsame; [apply steps_ret | exact H].
  - destruct e; try (eapply Hsame; [apply steps_raise | exact H]; fail).
    (* DoesNotExist *)
    apply testoutput_get_DoesNotExist in Eg. destruct Eg as [_ Hnone].
    unfold bind at 1 in H. unfold bind at 1 in H.
    match type of H with
    | context [match ?c w with _ => _ end] => destruct (c w) as [w1 [l1 | e1]] eqn:Eprep
    end.
    + assert (H1 : same testoutputs w w1).
      { destruct (docker_client l).
        - injection Eprep as <- _. reflexivity.
        - apply bind_Ok in Eprep as (wp & tg & Hp & Hr). injection Hr as <- _.
          eapply docker_prep_same_testoutputs; exact Hp. }
      unfold same in H1. unfold bind at 1 in H.
      destruct (single_test E self (image_tag l1) tc w1) as [w2 [out | e2]] eqn:Erun.
      * apply single_test_Ok in Erun. destruct Erun as (Hto & _ & _).
        assert (Hw' : testoutputs w' = testoutputs w2).
        { cbv [bind ret lift] in H. simpl in H.
          destruct (compare out tc); injection H as <- _; reflexivity. }
        unfold unique_pairs. rewrite Hw', Hto, H1.
        apply unique_rows_add; assumption.
      * apply single_test_Raise in Erun.
        injection H as <- _. unfold unique_pairs. rewrite Erun, H1. exact Hu.
    + assert (H1 : same testoutputs w w1).
      { destruct (docker_client l).
        - injection Eprep as <- _. reflexivity.
        - apply bind_Raise in Eprep. destruct Eprep as [Hp | (wp & tg & Hp & Hr)].
          + eapply docker_prep_same_testoutputs; exact Hp.
          + discriminate Hr. }
      injection H as <- _. unfold unique_pairs. rewrite H1. exact Hu.
Qed.

Lemma test_results_unique self : steps (keeps unique_pairs) (test_results E self).
Proof.
  unfold test_results.
  destruct (negb (Submission.adding self) && negb (Submission.compiles self)).
  - apply steps_ret.
  - apply steps_bind; [apply steps_reads | intros tcs].
    apply steps_bind;
      [apply steps_for_fold; intros; apply test_results_body_unique | intros l].
    apply steps_bind; [| intros; apply steps_ret].
    destruct (docker_client l); [| apply steps_ret].
    intros w w' r H Hu. unfold unique_pairs.
    assert (Hs : same testoutputs w w')
      by (eapply docker_cleanup_same_testoutputs; exact H).
    rewrite Hs. exact Hu.
Qed.

Lemma same_testoutputs_keeps {A : Type} (c : M A) :
  steps (same testoutputs) c -> steps (keeps unique_pairs) c.
Proof.
  intros H w w' r Hc Hu. unfold unique_pairs. rewrite (H _ _ _ Hc). exact Hu.
Qed.

Lemma testoutputs_delete_unique p : steps (keeps unique_pairs) (testoutputs_delete p).
Proof.
  intros w w' r H Hu. unfold testoutputs_delete, modify in H.
  injection H as <- _. unfold unique_pairs. simpl. apply unique_rows_filter, Hu.
Qed.

Lemma save_unique self update_fields run_tests w w' r :
  NoDup (map TestCase.pk (testcases w)) ->
  unique_pairs w ->
  save E self update_fields run_tests w = (w', r) ->
  unique_pairs w'.
Proof.
  intros Hnd Hu H. unfold save in H. unfold bind at 1 in H.
  destruct (model_save E self update_fields w) as [w1 [self1 | e1]] eqn:E1.
  - assert (Hto1 : same testoutputs w w1)
      by (eapply model_save_same; [| | | exact E1]; reflexivity).
    assert (Htc1 : same testcases w w1)
      by (eapply model_save_same; [| | | exact E1]; reflexivity).
    unfold same in Hto1, Htc1.
    assert (Hu1 : unique_pairs w1) by (unfold unique_pairs; rewrite Hto1; exact Hu).
    destruct run_tests.
    + unfold bind at 1 in H.
      destruct (full_test E self1 w1) as [w2 [c | e2]] eqn:E2.
      * assert (Hu2 : unique_pairs w2).
        { eapply full_test_unique; [| exact Hu1 | exact E2]. rewrite Htc1. exact Hnd. }
        assert (Hto3 : same testoutputs w2 w')
          by (eapply model_save_same; [| | | exact H]; reflexivity).
        unfold unique_pairs. rewrite Hto3. exact Hu2.
      * injection H as <- _.
        eapply full_test_unique; [| exact Hu1 | exact E2]. rewrite Htc1. exact Hnd.
    + injection H as <- _. exact Hu1.
  - assert (Hto1 : same testoutputs w w1)
      by (eapply model_save_same; [| | | exact E1]; reflexivity).
    injection H as <- _. unfold unique_pairs. rewrite Hto1. exact Hu.
Qed.

Lemma testcase_keys_frame w w' :
  same testcases w w' -> ahead w w' -> testcase_keys w -> testcase_keys w'.
Proof.
  unfold same, ahead, testcase_keys. intros Hs Ha [Hnd Hlt]. rewrite Hs.
  split; [exact Hnd |].
  eapply Forall_impl; [| exact Hlt]. simpl. intros tc Htc. lia.
Qed.

Lemma map_pk_replace (instance : TestCase.t) (l : list TestCase.t) :
  map TestCase.pk
    (map (fun r => if TestCase.pk r =? TestCase.pk instance then instance else r) l) =
  map TestCase.pk l.
Proof.
  induction l as [| r l IH]; simpl; [reflexivity |].
  rewrite IH. destruct (Nat.eqb_spec (TestCase.pk r) (TestCase.pk instance)) as [Heq | _];
    [rewrite Heq |]; reflexivity.
Qed.

Lemma Forall_map_pk (P : nat -> Prop) (l : list TestCase.t) :
  Forall (fun tc => P (TestCase.pk tc)) l <-> Forall P (map TestCase.pk l).
Proof. symmetry. apply Forall_map. Qed.

Lemma testcase_save_keeps instance adding w :
  unique_pairs w /\ testcase_keys w ->
  unique_pairs (fst (testcase_save instance adding w)) /\
  testcase_keys (fst (testcase_save instance adding w)).
Proof.
  intros [Hu [Hnd Hlt]].
  unfold testcase_save, delete_obsolete_testoutputs, on_commit, testoutputs_delete,
    modify, bind, ret.
  destruct adding; simpl.
  - split; [exact Hu |]. unfold testcase_keys. simpl. split.
    + rewrite map_app. simpl. apply NoDup_app; [exact Hnd | repeat constructor; simpl; tauto |].
      intros k Hk [<- | []]. apply (Forall_map_pk (fun k => k < fresh w)) in Hlt.
      rewrite Forall_forall in Hlt. specialize (Hlt _ Hk). lia.
    + apply Forall_app. split.
      * eapply Forall_impl; [| exact Hlt]. simpl. intros tc Htc. lia.
      * repeat constructor.
  - split.
    + unfold unique_pairs. simpl. apply unique_rows_filter, Hu.
    + unfold testcase_keys. simpl. rewrite map_pk_replace. split; [exact Hnd |].
      apply (Forall_map_pk (fun k => k < fresh w)). rewrite map_pk_replace.
      apply (Forall_map_pk (fun k => k < fresh w)). exact Hlt.
Qed.

Lemma testcase_delete_keeps instance w :
  unique_pairs w /\ testcase_keys w ->
  unique_pairs (fst (testcase_delete instance w)) /\
  testcase_keys (fst (testcase_delete instance w)).
Proof.
  intros [Hu [Hnd Hlt]].
  unfold testcase_delete, testoutputs_delete, modify, bind. simpl. split.
  - unfold unique_pairs. simpl. apply unique_rows_filter, Hu.
  - unfold testcase_keys. simpl. split.
    + apply distinct_keys_filter, Hnd.
    + rewrite Forall_forall in *. intros tc Htc. apply filter_In in Htc.
      apply Hlt. tauto.
Qed.

Lemma submission_delete_keeps instance w :
  unique_pairs w /\ testcase_keys w ->
  unique_pairs (fst (submission_delete instance w)) /\
  testcase_keys (fst (submission_delete instance w)).
Proof.
  intros [Hu Hk].
  unfold submission_delete, delete_submission_file, on_commit, delete_source_file,
    testoutputs_delete, modify, bind.
  destruct (path_exists (Submission.source_file instance) w); simpl.
  - split; [unfold unique_pairs; simpl; apply unique_rows_filter, Hu | exact Hk].
  - split; [unfold unique_pairs; simpl; apply unique_rows_filter, Hu | exact Hk].
Qed.

(** C9. Every operation of the core (a save of a submission with its
    eager evaluation, the eager evaluation by itself, the lazy evaluation,
    and the writes that invalidate: saving or deleting a test case,
    deleting a submission) leaves at most one row of [TestOutput] per
    (submission, testcase) pair when it found at most one, whether it
    returns or raises; the primary keys of the test cases stay distinct
    along the way. *)
Theorem operations_keep_one_row_per_pair (o : operation) (w : World) :
  unique_pairs w /\ testcase_keys w ->
  unique_pairs (perform E o w) /\ testcase_keys (perform E o w).
Proof.
  intros [Hu Hk]. destruct o as [self uf rt | self | self | tc adding | tc | s]; simpl.
  - destruct (save E self uf rt w) as [w' r] eqn:Es. simpl. split.
    + eapply save_unique; [apply Hk | exact Hu | exact Es].
    + eapply testcase_keys_frame; [| | exact Hk].
      * eapply save_same_testcases; exact Es.
      * eapply save_ahead; exact Es.
  - destruct (full_test E self w) as [w' r] eqn:Ef. simpl. split.
    + eapply full_test_unique; [apply Hk | exact Hu | exact Ef].
    + eapply testcase_keys_frame; [| | exact Hk].
      * eapply full_test_same_testcases; exact Ef.
      * eapply full_test_ahead; exact Ef.
  - destruct (test_results E self w) as [w' r] eqn:Et. simpl. split.
    + eapply test_results_unique; [exact Et | exact Hu].
    + eapply testcase_keys_frame; [| | exact Hk].
      * eapply test_results_same_testcases; exact Et.
      * eapply test_results_ahead; exact Et.
  - apply testcase_save_keeps. auto.
  - apply testcase_delete_keeps. auto.
  - apply submission_delete_keeps. auto.
Qed.

(** ** Runs that go through *)

Lemma existsb_eqb_false p l : ~ In p l -> existsb (Nat.eqb p) l = false.
Proof.
  intros H. destruct (existsb (Nat.eqb p) l) eqn:Ex; [| reflexivity].
  apply existsb_exists in Ex. destruct Ex as (q & Hq & Heq).
  apply Nat.eqb_eq in Heq. subst q. contradiction.
Qed.

Lemma filter_all {A : Type} (p : A -> bool) (l : list A) :
  (forall x, In x l -> p x = true) -> filter p l = l.
Proof.
  induction l as [| x l IH]; intros H; simpl; [reflexivity |].
  rewrite (H x (or_introl eq_refl)). f_equal. apply IH.
  intros y Hy. apply H. right. exact Hy.
Qed.

Lemma filter_out_absent p l : ~ In p l -> filter (fun q => negb (q =? p)) l = l.
Proof.
  intros H. apply filter_all. intros q Hq. apply negb_true_iff, Nat.eqb_neq.
  intros ->. contradiction.
Qed.

Lemma world_eta w :
  mkWorld (testcases w) (submissions w) (testoutputs w) (student_files w)
    (contexts w) (images w) (containers w) (started w) (log w) (fresh w) = w.
Proof. destruct w. reflexivity. Qed.

(** A failed compilation: the directory is made and removed again. *)
Lemma docker_prep_fails self w :
  ~ In (get_context_path self) (contexts w) ->
  gxx E (Submission.source_file self) = false ->
  docker_prep E self w = (w, Ok None).
Proof.
  intros Hfresh Hgxx.
  unfold docker_prep, bind, makedirs, try, check_call_gxx, rmtree, raise, ret.
  rewrite (existsb_eqb_false _ _ Hfresh), Hgxx. simpl.
  rewrite Nat.eqb_refl. simpl.
  rewrite (filter_out_absent _ _ Hfresh).
  unfold set_contexts. simpl. rewrite world_eta. reflexivity.
Qed.

(** A compilation and a build that succeed: the directory and the image
    are there. *)
Lemma docker_prep_builds self w :
  ~ In (get_context_path self) (contexts w) ->
  gxx E (Submission.source_file self) = true ->
  build_succeeds E (image_of self w) = true ->
  docker_prep E self w =
  (set_images
     (image_of self w ::
      filter (fun i => negb (has_tag (Submission.pk self) i)) (images w))
     (set_contexts (get_context_path self :: contexts w) w),
   Ok (Some (Submission.pk self))).
Proof.
  intros Hfresh Hgxx Hbuild.
  unfold docker_prep, bind, makedirs, try, check_call_gxx, testcase_set, reads,
    images_build, ret.
  rewrite (existsb_eqb_false _ _ Hfresh), Hgxx. simpl.
  unfold image_of, testcases_of in Hbuild. rewrite Hbuild. reflexivity.
Qed.

Lemma full_test_fails self w :
  ~ In (get_context_path self) (contexts w) ->
  gxx E (Submission.source_file self) = false ->
  full_test E self w =
  (set_testoutputs
     (filter (fun o => negb (TestOutput.submission o =? Submission.pk self))
             (testoutputs w)) w,
   Ok false).
Proof.
  intros Hfresh Hgxx. unfold full_test.
  unfold bind at 1. unfold testoutputs_delete at 1, modify.
  rewrite bind_run with (w1 := set_testoutputs
     (filter (fun o => negb (TestOutput.submission o =? Submission.pk self))
             (testoutputs w)) w) (a := @None nat).
  - reflexivity.
  - apply docker_prep_fails; assumption.
Qed.

Lemma new_id_apart w c : In c (containers w) -> has_id (new_id w) c = false.
Proof.
  intros Hc. unfold has_id, new_id. apply Nat.eqb_neq.
  assert (Hle : Container.id c <= list_max (map Container.id (containers w))).
  { pose proof (proj1 (list_max_le (map Container.id (containers w)) _) (Nat.le_refl _))
      as Hall.
    rewrite Forall_forall in Hall. apply Hall. apply in_map. exact Hc. }
  lia.
Qed.

Section NewContainer.

Variable id : nat.
Variable l : list Container.t.
Variable c : Container.t.
Hypothesis apart : forall c', In c' l -> has_id id c' = false.
Hypothesis named : Container.id c = id.

Lemma find_new : find (has_id id) (l ++ [c]) = Some c.
Proof.
  induction l as [| c' l' IH]; simpl.
  - unfold has_id. rewrite named, Nat.eqb_refl. reflexivity.
  - rewrite (apart c' (or_introl eq_refl)). apply IH.
    intros c'' Hc''. apply apart. right. exact Hc''.
Qed.

Lemma map_new (f : Container.t -> Container.t) :
  map (fun x => if has_id id x then f x else x) (l ++ [c]) = l ++ [f c].
Proof.
  induction l as [| c' l' IH]; simpl.
  - unfold has_id. rewrite named, Nat.eqb_refl. reflexivity.
  - rewrite (apart c' (or_introl eq_refl)). f_equal. apply IH.
    intros c'' Hc''. apply apart. right. exact Hc''.
Qed.

Lemma filter_new : filter (fun x => negb (has_id id x)) (l ++ [c]) = l.
Proof.
  induction l as [| c' l' IH]; simpl.
  - unfold has_id. rewrite named, Nat.eqb_refl. reflexivity.
  - rewrite (apart c' (or_introl eq_refl)). simpl. f_equal. apply IH.
    intros c'' Hc''. apply apart. right. exact Hc''.
Qed.

End NewContainer.

(** A program that ends in time: its container comes and goes, its
    output is logged, stored and returned. *)
Lemma single_test_exits self tag img tc out w :
  find (has_tag tag) (images w) = Some img ->
  exits_with E img tc out ->
  single_test E self (Some tag) tc w =
  (mkWorld (testcases w) (submissions w)
     (testoutputs w ++
      [TestOutput.mk (fresh w) (Submission.pk self) (TestCase.pk tc) out])
     (student_files w) (contexts w) (images w) (containers w) (S (started w))
     (log w ++ [("Test output:" ++ String newline_char "")%string; out])
     (S (fresh w)),
   Ok out).
Proof.
  intros Himg Hrun. unfold exits_with in Hrun.
  assert (Hapart : forall c', In c' (containers w) -> has_id (new_id w) c' = false)
    by (intros c' Hc'; apply new_id_apart, Hc').
  unfold single_test.
  (* create *)
  unfold bind at 1. unfold containers_create at 1. rewrite Himg.
  (* start *)
  unfold bind at 1. unfold container_start at 1. simpl containers.
  rewrite find_new by (exact Hapart || reflexivity).
  (* wait *)
  unfold bind at 1. unfold container_wait at 1. unfold set_state. simpl containers.
  rewrite map_new by (exact Hapart || reflexivity).
  rewrite find_new by (exact Hapart || reflexivity). simpl.
  rewrite Hrun.
  (* logs *)
  unfold bind at 1. unfold container_logs at 1. simpl containers.
  rewrite map_new by (exact Hapart || reflexivity).
  rewrite find_new by (exact Hapart || reflexivity). simpl.
  rewrite Hrun.
  (* remove *)
  unfold bind at 1. unfold container_remove at 1. simpl containers.
  rewrite find_new by (exact Hapart || reflexivity). simpl.
  rewrite filter_new by (exact Hapart || reflexivity).
  (* log and store *)
  unfold bind, log_write, testoutput_create, modify, ret. simpl.
  rewrite <- app_assoc. reflexivity.
Qed.

Lemma full_test_loop_exits self tag img tcs outs :
  Forall2 (exits_with E img) tcs outs ->
  forall w,
  find (has_tag tag) (images w) = Some img ->
  for_each tcs (fun testcase => single_test E self (Some tag) testcase ;;; ret tt) w =
  (mkWorld (testcases w) (submissions w)
     (testoutputs w ++ new_rows (fresh w) (Submission.pk self) tcs outs)
     (student_files w) (contexts w) (images w) (containers w)
     (started w + List.length tcs) (log w ++ new_log outs)
     (fresh w + List.length tcs),
   Ok tt).
Proof.
  induction 1 as [| tc out tcs outs Hrun _ IH]; intros w Himg; simpl.
  - rewrite !app_nil_r, !Nat.add_0_r, world_eta. reflexivity.
  - unfold bind at 1. unfold bind at 1.
    rewrite (single_test_exits self _ _ Himg Hrun). unfold ret at 1.
    rewrite IH by exact Himg. simpl.
    rewrite <- !app_assoc. simpl.
    rewrite <- !Nat.add_succ_comm. reflexivity.
Qed.

Lemma filter_idem {A : Type} (p : A -> bool) (l : list A) :
  filter p (filter p l) = filter p l.
Proof.
  apply filter_all. intros x Hx. apply filter_In in Hx. tauto.
Qed.

Lemma no_container_of self w :
  clean_for self w ->
  existsb (fun c => has_tag (Submission.pk self) (Container.image c)) (containers w)
  = false.
Proof.
  intros [_ Hc].
  destruct (existsb _ (containers w)) eqn:Ex; [| reflexivity].
  apply existsb_exists in Ex. destruct Ex as (c & Hin & Ht).
  unfold has_tag in Ht. apply Nat.eqb_eq in Ht. elim (Hc c Hin Ht).
Qed.

Lemma existsb_eqb_true p l : In p l -> existsb (Nat.eqb p) l = true.
Proof.
  intros H. apply existsb_exists. exists p. split; [exact H | apply Nat.eqb_refl].
Qed.

(** The teardown, when the image and the directory are there and no
    container holds the image. *)
Lemma docker_cleanup_removes self w :
  existsb (has_tag (Submission.pk self)) (images w) = true ->
  existsb (fun c => has_tag (Submission.pk self) (Container.image c)) (containers w)
  = false ->
  In (get_context_path self) (contexts w) ->
  docker_cleanup self (Some (Submission.pk self)) w =
  (set_contexts (filter (fun q => negb (q =? get_context_path self)) (contexts w))
     (set_images (filter (fun i => negb (has_tag (Submission.pk self) i)) (images w)) w),
   Ok tt).
Proof.
  intros Himg Hcont Hdir.
  unfold docker_cleanup, bind, images_remove, rmtree.
  rewrite Himg, Hcont. simpl.
  rewrite (existsb_eqb_true _ _ Hdir). reflexivity.
Qed.

(** The eager evaluation of a submission that compiles, with an engine
    that builds the image and programs that all end in time. *)
Lemma full_test_passes self outs w :
  clean_for self w ->
  gxx E (Submission.source_file self) = true ->
  build_succeeds E (image_of self w) = true ->
  Forall2 (exits_with E (image_of self w))
    (testcases_of (Submission.assignment self) w) outs ->
  full_test E self w =
  (mkWorld (testcases w) (submissions w)
     (filter (fun o => negb (TestOutput.submission o =? Submission.pk self))
             (testoutputs w) ++
      new_rows (fresh w) (Submission.pk self)
        (testcases_of (Submission.assignment self) w) outs)
     (student_files w) (contexts w)
     (filter (fun i => negb (has_tag (Submission.pk self) i)) (images w))
     (containers w)
     (started w + List.length (testcases_of (Submission.assignment self) w))
     (log w ++ new_log outs)
     (fresh w + List.length (testcases_of (Submission.assignment self) w)),
   Ok true).
Proof.
  intros Hclean Hgxx Hbuild Hruns. pose proof Hclean as [Hdir _].
  pose proof (no_container_of Hclean) as Hcont.
  unfold full_test.
  unfold bind at 1. unfold testoutputs_delete at 1, modify.
  set (w0 := set_testoutputs
               (filter (fun o => negb (TestOutput.submission o =? Submission.pk self))
                       (testoutputs w)) w).
  unfold bind at 1.
  rewrite (docker_prep_builds self w0 Hdir Hgxx Hbuild).
  unfold bind at 1. unfold testcase_set at 1, reads.
  unfold bind at 1.
  erewrite full_test_loop_exits; [| exact Hruns |].
  2:{ simpl. unfold has_tag at 1. simpl. rewrite Nat.eqb_refl. reflexivity. }
  unfold bind at 1.
  rewrite docker_cleanup_removes.
  - unfold ret, set_contexts, set_images. simpl.
    rewrite Nat.eqb_refl. simpl.
    rewrite (filter_out_absent _ _ Hdir).
    unfold has_tag at 1. simpl. rewrite Nat.eqb_refl. simpl.
    rewrite filter_idem. reflexivity.
  - simpl. unfold has_tag at 1. simpl. rewrite Nat.eqb_refl. reflexivity.
  - exact Hcont.
  - simpl. left. reflexivity.
Qed.

(** ** Saving *)

Lemma handler_keeps_identity instance update_fields w w' instance' :
  move_or_delete_submission_file E instance update_fields w = (w', Ok instance') ->
  Submission.pk instance' = Submission.pk instance /\
  Submission.adding instance' = Submission.adding instance.
Proof.
  unfold move_or_delete_submission_file. intros H.
  destruct update_fields as [fs |]; [| injection H as _ <-; auto].
  destruct (Submission.adding instance) eqn:Ea; [injection H as _ <-; auto |].
  destruct (field_in F_source_file fs).
  - apply bind_Ok in H as (w1 & old & _ & H).
    apply bind_Ok in H as (w2 & u & _ & H). injection H as _ <-. auto.
  - destruct (field_in F_student fs || field_in F_assignment fs).
    + unfold move_submission_file in H. cases_in H; inversion H; subst; simpl; auto.
    + injection H as _ <-. auto.
Qed.

Lemma existsb_pk_map (f : Submission.t -> Submission.t) pk l :
  (forall r, Submission.pk (f r) = Submission.pk r) ->
  existsb (fun r => Submission.pk r =? pk) (map f l) =
  existsb (fun r => Submission.pk r =? pk) l.
Proof.
  intros Hf. induction l as [| r l IH]; simpl; [reflexivity |].
  rewrite Hf, IH. reflexivity.
Qed.

Lemma pk_written fs self pk r :
  Submission.pk (if Submission.pk r =? pk then write_columns fs self r else r) =
  Submission.pk r.
Proof. destruct (Submission.pk r =? pk); reflexivity. Qed.

(** A save by Django that returns leaves a stored instance, with its row. *)
Lemma model_save_Ok self update_fields w w0 self0 :
  model_save E self update_fields w = (w0, Ok self0) ->
  update_fields <> Some [] ->
  Submission.adding self0 = false /\
  existsb (fun r => Submission.pk r =? Submission.pk self0) (submissions w0) = true.
Proof.
  intros H Hne. unfold model_save in H.
  assert (H' : (self1 <- move_or_delete_submission_file E self update_fields ;;
                fun w =>
                  if Submission.adding self1 then
                    match update_fields with
                    | Some _ => (w, Raise ValueError)
                    | None =>
                        let row := stored (fresh w) self1 in
                        (set_fresh (S (fresh w))
                           (set_submissions (submissions w ++ [row]) w), Ok row)
                    end
                  else if existsb (fun r => Submission.pk r =? Submission.pk self1)
                            (submissions w)
                  then
                    let fs :=
                      match update_fields with
                      | Some fs => fs
                      | None => [F_student; F_assignment; F_date; F_confirmed;
                                 F_source_file; F_compiles]
                      end in
                    (set_submissions
                       (map (fun r =>
                               if Submission.pk r =? Submission.pk self1
                               then write_columns fs self1 r else r)
                            (submissions w)) w,
                     Ok self1)
                  else
                    match update_fields with
                    | Some _ => (w, Raise DatabaseError)
                    | None =>
                        (set_submissions
                           (submissions w ++ [stored (Submission.pk self1) self1]) w,
                         Ok self1)
                    end) w = (w0, Ok self0)).
  { destruct update_fields as [[| fd fs] |]; [contradiction Hne; reflexivity | exact H ..]. }
  clear H. apply bind_Ok in H' as (w1 & self1 & Hh & H).
  destruct (Submission.adding self1) eqn:Ea.
  - destruct update_fields; [discriminate H |].
    injection H as <- <-. simpl. split; [reflexivity |].
    rewrite existsb_app. simpl. rewrite Nat.eqb_refl. apply orb_true_r.
  - destruct (existsb (fun r => Submission.pk r =? Submission.pk self1) (submissions w1))
      eqn:Ex.
    + injection H as <- <-. simpl. split; [exact Ea |].
      rewrite existsb_pk_map; [exact Ex | intros r; apply pk_written].
    + destruct update_fields; [discriminate H |].
      injection H as <- <-. simpl. split; [exact Ea |].
      rewrite existsb_app. simpl. rewrite Nat.eqb_refl. apply orb_true_r.
Qed.

(** The second save, [update_fields=['compiles']], writes the flag. *)
Lemma model_save_compiles self w :
  Submission.adding self = false ->
  existsb (fun r => Submission.pk r =? Submission.pk self) (submissions w) = true ->
  model_save E self (Some [F_compiles]) w = (flag_written self w, Ok self).
Proof.
  intros Ha Hrow. unfold model_save, move_or_delete_submission_file.
  rewrite Ha. simpl. unfold bind, ret. rewrite Ha, Hrow. reflexivity.
Qed.

Lemma flag_written_flagged self w :
  existsb (fun r => Submission.pk r =? Submission.pk self) (submissions w) = true ->
  flagged (Submission.pk self) (Submission.compiles self) (flag_written self w).
Proof.
  intros Hrow. unfold flagged, flag_written. simpl. split.
  - apply existsb_exists in Hrow. destruct Hrow as (r & Hin & Hpk).
    exists (write_columns [F_compiles] self r). split.
    + apply in_map_iff. exists r. rewrite Hpk. auto.
    + simpl. apply Nat.eqb_eq, Hpk.
  - intros row Hin Hpk. apply in_map_iff in Hin. destruct Hin as (r & Hr & _).
    destruct (Submission.pk r =? Submission.pk self) eqn:Er.
    + rewrite <- Hr. reflexivity.
    + subst row. apply Nat.eqb_neq in Er. contradiction.
Qed.

(** [save] with the tests on: Django's save, the eager evaluation, the
    flag. *)
Lemma save_runs self update_fields w w0 self0 w1 c :
  model_save E self update_fields w = (w0, Ok self0) ->
  update_fields <> Some [] ->
  full_test E self0 w0 = (w1, Ok c) ->
  save E self update_fields true w =
    (flag_written (with_compiles c self0) w1, Ok (with_compiles c self0)) /\
  flagged (Submission.pk self0) c (flag_written (with_compiles c self0) w1).
Proof.
  intros Hsave Hne Hfull.
  pose proof Hsave as HOk. apply model_save_Ok in HOk; [| exact Hne].
  destruct HOk as [Ha Hrow].
  assert (Hsub : same submissions w0 w1)
    by (eapply full_test_same_submissions; exact Hfull).
  unfold same in Hsub.
  assert (Hrow1 : existsb
            (fun r => Submission.pk r =? Submission.pk (with_compiles c self0))
            (submissions w1) = true) by (rewrite Hsub; exact Hrow).
  split.
  - unfold save. erewrite bind_run; [| exact Hsave]. erewrite bind_run; [| exact Hfull].
    apply model_save_compiles; [exact Ha | exact Hrow1].
  - apply (flag_written_flagged (with_compiles c self0)). exact Hrow1.
Qed.

(** What Django's save leaves alone: everything but the table of
    submissions, the source files and the key counter. *)
Lemma model_save_frame self update_fields w w0 r :
  model_save E self update_fields w = (w0, r) ->
  testcases w0 = testcases w /\ testoutputs w0 = testoutputs w /\
  contexts w0 = contexts w /\ images w0 = images w /\
  containers w0 = containers w /\ started w0 = started w.
Proof.
  intros H.
  assert (H1 : same testcases w w0)
    by (eapply model_save_same; [| | | exact H]; reflexivity).
  assert (H2 : same testoutputs w w0)
    by (eapply model_save_same; [| | | exact H]; reflexivity).
  assert (H3 : same contexts w w0)
    by (eapply model_save_same; [| | | exact H]; reflexivity).
  assert (H4 : same images w w0)
    by (eapply model_save_same; [| | | exact H]; reflexivity).
  assert (H5 : same containers w w0)
    by (eapply model_save_same; [| | | exact H]; reflexivity).
  assert (H6 : same started w w0)
    by (eapply model_save_same; [| | | exact H]; reflexivity).
  unfold same in *. auto 7.
Qed.

(** C4. A save whose instance Django stored, with no context directory
    left over for it and a source that g++ rejects (non-zero exit,
    timeout or crash alike): the eager evaluation returns false having
    only dropped the rows of the submission, the save returns the
    instance with [compiles] false and writes that flag to its row, no
    container is started or left, no row of [TestOutput] is created, and
    no context directory remains. *)
Theorem failed_compile_runs_nothing self update_fields w w0 self0 :
  model_save E self update_fields w = (w0, Ok self0) ->
  update_fields <> Some [] ->
  ~ In (get_context_path self0) (contexts w0) ->
  gxx E (Submission.source_file self0) = false ->
  exists w',
    save E self update_fields true w = (w', Ok (with_compiles false self0)) /\
    full_test E self0 w0 =
      (set_testoutputs
         (filter (fun o => negb (of_submission (Submission.pk self0) o))
                 (testoutputs w0)) w0, Ok false) /\
    flagged (Submission.pk self0) false w' /\
    started w' = started w /\
    containers w' = containers w /\
    testoutputs w' =
      filter (fun o => negb (of_submission (Submission.pk self0) o)) (testoutputs w) /\
    ~ In (get_context_path self0) (contexts w').
Proof.
  intros Hsave Hne Hdir Hgxx.
  pose proof (@full_test_fails self0 w0 Hdir Hgxx) as Hfull.
  destruct (@save_runs _ _ _ _ _ _ _ Hsave Hne Hfull) as [Hrun Hflag].
  destruct (@model_save_frame _ _ _ _ _ Hsave) as (_ & Hto & _ & _ & Hco & Hst).
  eexists. split; [exact Hrun |]. split; [exact Hfull |].
  split; [exact Hflag |]. simpl. rewrite Hto. auto.
Qed.



(** ** Replacing the source *)

Lemma field_in_nil f : field_in f [] = false.
Proof. reflexivity. Qed.





(** ** The lazy evaluation after the eager one *)

Lemma compare_shown actual tc : compare actual tc = Ok (shown actual tc).
Proof. apply compare_ok. Qed.

Lemma model_save_compiles_Ok self w w' self' :
  model_save E self (Some [F_compiles]) w = (w', Ok self') ->
  self' = self /\ Submission.adding self = false /\
  testoutputs w' = testoutputs w /\ testcases w' = testcases w.
Proof.
  intros H.
  destruct (@model_save_frame _ _ _ _ _ H) as (Htc & Hto & _).
  unfold model_save, move_or_delete_submission_file in H.
  destruct (Submission.adding self) eqn:Ea.
  - unfold bind, ret in H. rewrite Ea in H. discriminate H.
  - simpl in H. unfold bind, ret in H. rewrite Ea in H.
    cases_in H; inversion H; subst; auto.
Qed.

Lemma handler_keeps_assignment instance update_fields w w' instance' :
  move_or_delete_submission_file E instance update_fields w = (w', Ok instance') ->
  Submission.assignment instance' = Submission.assignment instance.
Proof.
  unfold move_or_delete_submission_file. intros H.
  destruct update_fields as [fs |]; [| injection H as _ <-; auto].
  destruct (Submission.adding instance) eqn:Ea; [injection H as _ <-; auto |].
  destruct (field_in F_source_file fs).
  - apply bind_Ok in H as (w1 & old & _ & H).
    apply bind_Ok in H as (w2 & u & _ & H). injection H as _ <-. auto.
  - destruct (field_in F_student fs || field_in F_assignment fs).
    + unfold move_submission_file in H. cases_in H; inversion H; subst; simpl; auto.
    + injection H as _ <-. auto.
Qed.

(** The eager evaluation, when it returns: the rows of the submission
    are dropped and, if it compiled, one row per test case is written. *)
Lemma full_test_Ok self w w' c :
  full_test E self w = (w', Ok c) ->
  exists news,
    testoutputs w' =
      filter (fun o => negb (of_submission (Submission.pk self) o)) (testoutputs w)
      ++ news /\
    testcases w' = testcases w /\
    (if c then rows_for self (testcases_of (Submission.assignment self) w) news
     else news = []).
Proof.
  intros H.
  assert (Htc : same testcases w w')
    by (eapply full_test_same_testcases; exact H).
  unfold full_test in H.
  apply bind_Ok in H as (w0 & u & Hdel & H).
  unfold testoutputs_delete, modify in Hdel. injection Hdel as <- _.
  apply bind_Ok in H as (w1 & tag & Hprep & H).
  assert (Hto1 : same testoutputs
            (set_testoutputs
               (filter (fun o => negb (TestOutput.submission o =? Submission.pk self))
                  (testoutputs w)) w) w1)
    by (eapply docker_prep_same_testoutputs; exact Hprep).
  assert (Htc1 : same testcases
            (set_testoutputs
               (filter (fun o => negb (TestOutput.submission o =? Submission.pk self))
                  (testoutputs w)) w) w1)
    by (eapply docker_prep_same_testcases; exact Hprep).
  unfold same in Hto1, Htc1. simpl in Hto1, Htc1.
  destruct tag as [tag |].
  - apply bind_Ok in H as (w2 & tcs & Hset & H).
    unfold testcase_set, reads in Hset. injection Hset as <- <-.
    apply bind_Ok in H as (w3 & u3 & Hloop & H).
    apply bind_Ok in H as (w4 & u4 & Hclean & H). injection H as <- <-.
    assert (Hto4 : same testoutputs w3 w4)
      by (eapply docker_cleanup_same_testoutputs; exact Hclean).
    unfold same in Hto4.
    destruct u3.
    apply full_test_loop in Hloop.
    destruct Hloop as (done & rest & news & Hsplit & Hto3 & Hrows & Hrest & _).
    rewrite (Hrest eq_refl), app_nil_r in Hsplit.
    exists news. split; [| split; [exact Htc |]].
    + rewrite Hto4, Hto3, Hto1. reflexivity.
    + unfold testcases_of. rewrite <- Htc1, Hsplit. exact Hrows.
  - injection H as <- <-. exists []. rewrite app_nil_r.
    split; [exact Hto1 | split; [exact Htc | reflexivity]].
Qed.

(** The lazy loop over test cases that each have their one row: nothing
    but lookups. *)
Lemma test_results_loop_cached self tcs rows w :
  Forall2 (fun tc o =>
             filter (of_pair (Submission.pk self) (TestCase.pk tc)) (testoutputs w) = [o])
          tcs rows ->
  forall l,
  for_fold tcs (test_results_body E self) l w =
  (w, Ok (mk_locals (docker_client l) (image_tag l) (tests l ++ shown_all tcs rows))).
Proof.
  induction 1 as [| tc o tcs rows Hone _ IH]; intros l; simpl.
  - unfold ret, shown_all. simpl. rewrite app_nil_r. destruct l. reflexivity.
  - unfold bind at 1. unfold test_results_body at 1.
    unfold bind at 1. unfold try, testoutput_get. rewrite Hone.
    unfold bind at 1. unfold ret at 1. simpl.
    unfold bind at 1. unfold lift. rewrite compare_shown. unfold ret at 1.
    rewrite IH. simpl. unfold shown_all. simpl. rewrite <- app_assoc. reflexivity.
Qed.

Lemma filter_one_by_key (news : list TestOutput.t) s o :
  NoDup (map TestOutput.testcase news) ->
  Forall (fun o' => TestOutput.submission o' = s) news ->
  In o news ->
  filter (of_pair s (TestOutput.testcase o)) news = [o].
Proof.
  induction news as [| o' news IH]; intros Hnd Hs Hin; [contradiction |].
  inversion Hnd as [| k ks Hnotin Hnd']; subst.
  inversion Hs as [| o1 l1 Hs1 Hs']; subst.
  simpl. destruct Hin as [-> | Hin].
  - unfold of_pair at 1. rewrite !Nat.eqb_refl. simpl. f_equal.
    apply filter_none. intros o2 Ho2. apply of_pair_false_r.
    intros Heq. apply Hnotin. rewrite <- Heq. apply in_map. exact Ho2.
  - rewrite of_pair_false_r.
    + apply IH; assumption.
    + intros Heq. apply Hnotin. rewrite Heq. apply in_map. exact Hin.
Qed.

Lemma Forall2_with_In {A B : Type} (P : A -> B -> Prop) (l : list A) (l' : list B) :
  Forall2 P l l' -> Forall2 (fun x y => P x y /\ In y l') l l'.
Proof.
  induction 1 as [| x y l l' Hxy _ IH].
  - constructor.
  - constructor; [split; [exact Hxy | left; reflexivity] |].
    eapply Forall2_impl; [| exact IH]. simpl. intros a b [Hab Hb]. split; [exact Hab |].
    right. exact Hb.
Qed.

(** Rows written one per test case are found again, one per lookup. *)
Lemma rows_for_found self tcs news others :
  rows_for self tcs news ->
  NoDup (map TestCase.pk tcs) ->
  (forall o, In o others -> TestOutput.submission o <> Submission.pk self) ->
  Forall2 (fun tc o =>
             filter (of_pair (Submission.pk self) (TestCase.pk tc)) (others ++ news) = [o])
          tcs news.
Proof.
  intros Hrows Hnd Hothers.
  destruct (rows_for_keys Hrows) as [Hsub Hkeys].
  assert (Hnd' : NoDup (map TestOutput.testcase news)) by (rewrite Hkeys; exact Hnd).
  apply Forall2_with_In in Hrows.
  eapply Forall2_impl; [| exact Hrows]. simpl.
  intros tc o [[_ Ht] Hin]. rewrite filter_app.
  rewrite (filter_none (of_pair (Submission.pk self) (TestCase.pk tc)) others).
  - simpl. rewrite <- Ht. apply filter_one_by_key; assumption.
  - intros o' Ho'. apply of_pair_false_l. apply Hothers, Ho'.
Qed.

(** C8. After a save whose eager evaluation completed, with nothing
    edited in between, the lazy evaluation of the returned instance
    returns and leaves the whole world as it found it (no directory, image
    or container is made, let alone started); its [compiles] is the flag
    the eager evaluation set, and its tests are the comparisons, test case
    by test case, with the rows [news] that the eager evaluation wrote
    (none of either for a submission that did not compile). *)
Theorem lazy_after_eager_runs_nothing self update_fields w w1 self1 :
  save E self update_fields true w = (w1, Ok self1) ->
  NoDup (map TestCase.pk (testcases w)) ->
  exists news,
    testoutputs w1 =
      filter (fun o => negb (of_submission (Submission.pk self1) o)) (testoutputs w)
      ++ news /\
    (if Submission.compiles self1
     then rows_for self1 (testcases_of (Submission.assignment self1) w1) news
     else news = []) /\
    test_results E self1 w1 =
      (w1, Ok (Results.mk (Submission.compiles self1)
                 (shown_all (testcases_of (Submission.assignment self1) w1) news))).
Proof.
  intros H Hnd. unfold save in H.
  apply bind_Ok in H as (w0 & self0 & Hsave & H).
  apply bind_Ok in H as (w2 & c & Hfull & Hflag).
  destruct (@model_save_frame _ _ _ _ _ Hsave) as (Htc0 & Hto0 & _).
  apply model_save_compiles_Ok in Hflag.
  destruct Hflag as (-> & Ha & Hto1 & Htc1).
  apply full_test_Ok in Hfull. destruct Hfull as (news & Hto2 & Htc2 & Hrows).
  simpl in Ha. simpl.
  assert (Htcs : testcases_of (Submission.assignment self0) w1 =
                 testcases_of (Submission.assignment self0) w0).
  { unfold testcases_of. rewrite Htc1, Htc2. reflexivity. }
  exists news. rewrite Htcs. split; [| split].
  - rewrite Hto1, Hto2, Hto0. reflexivity.
  - exact Hrows.
  - unfold test_results. simpl. rewrite Ha. simpl.
    destruct c; simpl.
    + unfold bind at 1. unfold testcase_set at 1, reads.
      fold (testcases_of (Submission.assignment self0) w1). rewrite Htcs.
      unfold bind at 1.
      rewrite test_results_loop_cached with (rows := news).
      * reflexivity.
      * rewrite Hto1, Hto2.
        apply (@rows_for_found (with_compiles true self0)); [exact Hrows | |].
        -- unfold testcases_of. apply distinct_keys_filter. rewrite Htc0. exact Hnd.
        -- intros o Ho. apply filter_In in Ho. destruct Ho as [_ Ho].
           apply negb_true_iff, Nat.eqb_neq in Ho. exact Ho.
    + subst news. unfold shown_all. rewrite combine_nil. reflexivity.
Qed.

(** ** Invalidation by a test case *)

(** C6. Saving an existing test case (any edit of its input or expected
    output) returns, and leaves in [TestOutput] exactly the rows that do
    not reference that test case, whatever their submission, in their
    order: a row is deleted if and only if it references the test case. *)
Theorem testcase_edit_deletes_exactly_its_rows (instance : TestCase.t) (w : World) :
  exists w',
    testcase_save instance false w = (w', Ok instance) /\
    testoutputs w' =
      filter (fun o => negb (of_testcase (TestCase.pk instance) o)) (testoutputs w) /\
    (forall o, In o (testoutputs w') <->
               In o (testoutputs w) /\ TestOutput.testcase o <> TestCase.pk instance).
Proof.
  eexists. split; [reflexivity |]. simpl. split; [reflexivity |].
  intros o. rewrite filter_In. unfold of_testcase.
  rewrite negb_true_iff, Nat.eqb_neq. tauto.
Qed.

(** Creating a test case deletes nothing. *)
Lemma testcase_create_keeps_rows (instance : TestCase.t) (w : World) :
  testoutputs (fst (testcase_save instance true w)) = testoutputs w.
Proof. reflexivity. Qed.

(** ** A program that does not end in time *)

(** [wait] raises, and nothing after it in [single_test] runs: the
    container stays, running; no output is read, logged or stored. *)
Lemma single_test_hangs self tag img tc partial w :
  find (has_tag tag) (images w) = Some img ->
  container_run E img (TestCase.pk tc) = Hangs partial ->
  single_test E self (Some tag) tc w =
  (set_started (S (started w))
     (set_containers
        (containers w ++ [Container.mk (new_id w) img (TestCase.pk tc) Running]) w),
   Raise ReadTimeout).
Proof.
  intros Himg Hrun.
  assert (Hapart : forall c', In c' (containers w) -> has_id (new_id w) c' = false)
    by (intros c' Hc'; apply new_id_apart, Hc').
  unfold single_test.
  unfold bind at 1. unfold containers_create at 1. rewrite Himg.
  unfold bind at 1. unfold container_start at 1. simpl containers.
  rewrite find_new by (exact Hapart || reflexivity).
  unfold bind at 1. unfold container_wait at 1. unfold set_state. simpl containers.
  rewrite map_new by (exact Hapart || reflexivity).
  rewrite find_new by (exact Hapart || reflexivity). simpl.
  rewrite Hrun. reflexivity.
Qed.

(** ** Further properties of the evaluations *)

(** X1. A context directory left over for the submission: the eager
    evaluation has already deleted the rows of the submission when
    [os.makedirs] raises, and nothing is run to replace them. *)
Theorem leftover_directory_costs_the_cached_rows self w :
  In (get_context_path self) (contexts w) ->
  full_test E self w =
  (set_testoutputs
     (filter (fun o => negb (of_submission (Submission.pk self) o)) (testoutputs w)) w,
   Raise FileExistsError).
Proof.
  intros Hdir. unfold full_test, bind, testoutputs_delete, modify, docker_prep, bind,
    makedirs.
  simpl. rewrite (existsb_eqb_true _ _ Hdir). reflexivity.
Qed.

(** X2. A program that ends in time: [single_test] returns what it wrote,
    stores it as one new row under the next key, appends the header and
    the output to the log, has started one container and leaves the
    containers, the images and the directories as they were. *)
Theorem single_test_stores_what_it_returns self tag img tc out w :
  find (has_tag tag) (images w) = Some img ->
  exits_with E img tc out ->
  exists w',
    single_test E self (Some tag) tc w = (w', Ok out) /\
    testoutputs w' =
      testoutputs w ++
      [TestOutput.mk (fresh w) (Submission.pk self) (TestCase.pk tc) out] /\
    log w' = log w ++ [("Test output:" ++ String newline_char "")%string; out] /\
    started w' = S (started w) /\
    containers w' = containers w /\ images w' = images w /\ contexts w' = contexts w.
Proof.
  intros Himg Hrun. eexists. split; [apply (single_test_exits self _ _ Himg Hrun) |].
  simpl. auto 7.
Qed.

(** X3. A program that ends in time but whose output is not UTF-8:
    [decode] raises before [container.remove()] is reached, so the
    container stays (exited), and nothing is logged or stored. *)
Theorem undecodable_output_leaves_the_container self tag img tc w :
  find (has_tag tag) (images w) = Some img ->
  container_run E img (TestCase.pk tc) = ExitsGarbled ->
  single_test E self (Some tag) tc w =
  (set_started (S (started w))
     (set_containers
        (containers w ++ [Container.mk (new_id w) img (TestCase.pk tc) Exited]) w),
   Raise UnicodeDecodeError).
Proof.
  intros Himg Hrun.
  assert (Hapart : forall c', In c' (containers w) -> has_id (new_id w) c' = false)
    by (intros c' Hc'; apply new_id_apart, Hc').
  unfold single_test.
  unfold bind at 1. unfold containers_create at 1. rewrite Himg.
  unfold bind at 1. unfold container_start at 1. simpl containers.
  rewrite find_new by (exact Hapart || reflexivity).
  unfold bind at 1. unfold container_wait at 1. unfold set_state. simpl containers.
  rewrite map_new by (exact Hapart || reflexivity).
  rewrite find_new by (exact Hapart || reflexivity). simpl.
  rewrite Hrun.
  unfold bind at 1. unfold container_logs at 1. simpl containers.
  rewrite map_new by (exact Hapart || reflexivity).
  rewrite find_new by (exact Hapart || reflexivity). simpl.
  rewrite Hrun. reflexivity.
Qed.

(** X4. The eager evaluation that goes through leaves nothing behind: the
    directory is gone again, no image carries the tag of the submission,
    the containers are those that were there, and the log has grown by
    the output of every test. *)
Theorem completed_evaluation_cleans_up self outs w :
  clean_for self w ->
  gxx E (Submission.source_file self) = true ->
  build_succeeds E (image_of self w) = true ->
  Forall2 (exits_with E (image_of self w))
    (testcases_of (Submission.assignment self) w) outs ->
  exists w',
    full_test E self w = (w', Ok true) /\
    contexts w' = contexts w /\
    containers w' = containers w /\
    images w' = filter (fun i => negb (has_tag (Submission.pk self) i)) (images w) /\
    existsb (has_tag (Submission.pk self)) (images w') = false /\
    log w' = log w ++ new_log outs.
Proof.
  intros Hclean Hgxx Hbuild Hruns.
  eexists. split; [apply (@full_test_passes _ _ _ Hclean Hgxx Hbuild Hruns) |].
  simpl. repeat split.
  destruct (existsb _ _) eqn:Ex; [| reflexivity].
  apply existsb_exists in Ex. destruct Ex as (i & Hin & Ht).
  apply filter_In in Hin. destruct Hin as [_ Hn]. rewrite Ht in Hn. discriminate Hn.
Qed.

(** The lazy evaluation that goes past its first test, when it returns. *)
Lemma test_results_proceeds self w w' res :
  test_results E self w = (w', Ok res) ->
  Submission.adding self = true \/ Submission.compiles self = true ->
  Forall2 (answers self w') (testcases_of (Submission.assignment self) w)
    (Results.tests res).
Proof.
  unfold test_results. intros H Hgo.
  assert (Hc : negb (Submission.adding self) && negb (Submission.compiles self) = false)
    by (destruct Hgo as [-> | ->]; [reflexivity | apply andb_false_r]).
  rewrite Hc in H.
  apply bind_Ok in H as (w0 & tcs & H0 & H).
  apply bind_Ok in H as (w1 & l1 & H1 & H).
  apply bind_Ok in H as (w2 & u & H2 & H).
  injection H as <- <-. simpl.
  unfold testcase_set, reads in H0. injection H0 as <- <-.
  assert (Hg : grows w1 w2).
  { destruct (docker_client l1).
    - eapply same_testoutputs_grows;
        [apply docker_cleanup_same_testoutputs | exact H2].
    - injection H2 as <- _. reflexivity. }
  apply test_results_loop_Ok in H1. destruct H1 as (rs & Hrs & Hall).
  simpl in Hrs. subst.
  eapply Forall2_impl; [| exact Hall].
  intros tc r Ha. eapply answers_grows; eauto.
Qed.

(** X5. For a submission that is not known to fail, the results come one
    per test case of the assignment, in the order of the test cases, each
    with the input of its test case. *)
Theorem results_follow_the_test_cases self w w' res :
  test_results E self w = (w', Ok res) ->
  Submission.adding self = true \/ Submission.compiles self = true ->
  List.length (Results.tests res) =
    List.length (testcases_of (Submission.assignment self) w) /\
  map Result.input (Results.tests res) =
    map TestCase.input (testcases_of (Submission.assignment self) w).
Proof.
  intros H Hgo. pose proof (@test_results_proceeds _ _ _ _ H Hgo) as Hall.
  induction Hall as [| tc r tcs rs (o & _ & _ & _ & Hc) _ [IHlen IHmap]]; simpl.
  - auto.
  - rewrite compare_ok in Hc. injection Hc as <-. simpl.
    split; congruence.
Qed.


(** What one turn of the lazy loop does to the table: nothing, and then
    it only returns if the row was there, alone; or it appends the one
    row that was missing. *)
Lemma test_results_body_rows self l tc w w' r :
  test_results_body E self l tc w = (w', r) ->
  (testoutputs w' = testoutputs w /\
   (forall l', r = Ok l' ->
      List.length (filter (of_pair (Submission.pk self) (TestCase.pk tc))
                     (testoutputs w)) = 1)) \/
  (filter (of_pair (Submission.pk self) (TestCase.pk tc)) (testoutputs w) = [] /\
   exists k out,
     testoutputs w' =
       testoutputs w ++ [TestOutput.mk k (Submission.pk self) (TestCase.pk tc) out]).
Proof.
  intros H. unfold test_results_body in H.
  unfold bind at 1 in H. unfold try in H.
  destruct (testoutput_get (Submission.pk self) (TestCase.pk tc) w) as [wg rg] eqn:Eg.
  assert (Hwg : wg = w) by (eapply testoutput_get_world; exact Eg). subst wg.
  assert (Hsame : forall (c : M (locals * string)),
             steps (same testoutputs) c ->
             (l_out <- c ;;
              result <- lift (compare (snd l_out) tc) ;;
              ret (mk_locals (docker_client (fst l_out)) (image_tag (fst l_out))
                     (tests (fst l_out) ++ [result]))) w = (w', r) ->
             testoutputs w' = testoutputs w).
  { intros c Hc Hrun.
    assert (Hs : same testoutputs w w'); [| exact Hs].
    revert Hrun. generalize r. generalize w'. generalize w.
    change (steps (same testoutputs)
              (l_out <- c ;;
               result <- lift (compare (snd l_out) tc) ;;
               ret (mk_locals (docker_client (fst l_out)) (image_tag (fst l_out))
                      (tests (fst l_out) ++ [result])))).
    frame. exact Hc. }
  destruct rg as [o | e].
  - left. split; [eapply Hsame; [apply steps_ret | exact H] |].
    intros l' _. apply testoutput_get_Ok in Eg. destruct Eg as [_ ->]. reflexivity.
  - destruct e;
      try (left; split; [eapply Hsame; [apply steps_raise | exact H] |];
           intros l' ->; unfold bind, raise in H; discriminate H).
    apply testoutput_get_DoesNotExist in Eg. destruct Eg as [_ Hnone].
    unfold bind at 1 in H. unfold bind at 1 in H.
    match type of H with
    | context [match ?c w with _ => _ end] => destruct (c w) as [w1 [l1 | e1]] eqn:Eprep
    end.
    + assert (H1 : same testoutputs w w1).
      { destruct (docker_client l).
        - injection Eprep as <- _. reflexivity.
        - apply bind_Ok in Eprep as (wp & tg & Hp & Hr). injection Hr as <- _.
          eapply docker_prep_same_testoutputs; exact Hp. }
      unfold same in H1. unfold bind at 1 in H.
      destruct (single_test E self (image_tag l1) tc w1) as [w2 [out | e2]] eqn:Erun.
      * right. split; [exact Hnone |].
        apply single_test_Ok in Erun. destruct Erun as (Hto & _ & _).
        assert (Hw' : testoutputs w' = testoutputs w2).
        { cbv [bind ret lift] in H. simpl in H.
          destruct (compare out tc); injection H as <- _; reflexivity. }
        exists (fresh w1), out. rewrite Hw', Hto, H1. reflexivity.
      * apply single_test_Raise in Erun.
        injection H as <- <-. left. split; [congruence | discriminate].
    + assert (H1 : same testoutputs w w1).
      { destruct (docker_client l).
        - injection Eprep as <- _. reflexivity.
        - apply bind_Raise in Eprep. destruct Eprep as [Hp | (wp & tg & Hp & Hr)].
          + eapply docker_prep_same_testoutputs; exact Hp.
          + discriminate Hr. }
      injection H as <- <-. left. split; [exact H1 | discriminate].
Qed.

(** The number of rows of a pair. *)
Lemma count_after_append s t l k s' t' out :
  List.length (filter (of_pair s t) (l ++ [TestOutput.mk k s' t' out])) =
  List.length (filter (of_pair s t) l) + (if of_pair s t (TestOutput.mk k s' t' out) then 1 else 0).
Proof.
  rewrite filter_app, length_app. simpl.
  destruct (of_pair s t (TestOutput.mk k s' t' out)); reflexivity.
Qed.

Lemma test_results_body_keeps_one self l tc s t :
  steps (keeps (fun w => List.length (filter (of_pair s t) (testoutputs w)) = 1))
    (test_results_body E self l tc).
Proof.
  intros w w' r H Hone. apply test_results_body_rows in H.
  destruct H as [[-> _] | (Hnone & k & out & ->)]; [exact Hone |].
  rewrite count_after_append.
  destruct (of_pair s t _) eqn:Ep; [| lia].
  apply of_pair_true in Ep. simpl in Ep. destruct Ep as [<- <-].
  rewrite Hnone in Hone. discriminate Hone.
Qed.

Lemma test_results_body_count_grows self l tc s t w w' r :
  test_results_body E self l tc w = (w', r) ->
  List.length (filter (of_pair s t) (testoutputs w)) <=
  List.length (filter (of_pair s t) (testoutputs w')).
Proof.
  intros H. apply test_results_body_rows in H.
  destruct H as [[-> _] | (_ & k & out & ->)]; [lia |].
  rewrite count_after_append. lia.
Qed.

Lemma test_results_loop_complete self tcs : forall l w w' l',
  for_fold tcs (test_results_body E self) l w = (w', Ok l') ->
  forall tc, In tc tcs ->
    List.length (filter (of_pair (Submission.pk self) (TestCase.pk tc))
                   (testoutputs w)) <= 1 /\
    List.length (filter (of_pair (Submission.pk self) (TestCase.pk tc))
                   (testoutputs w')) = 1.
Proof.
  induction tcs as [| tc0 tcs IH]; intros l w w' l' H tc Hin; [contradiction |].
  simpl in H. apply bind_Ok in H as (w1 & l1 & Hbody & Hloop).
  destruct Hin as [-> | Hin].
  - pose proof Hbody as Hrows. apply test_results_body_rows in Hrows.
    assert (Hone : List.length (filter (of_pair (Submission.pk self) (TestCase.pk tc))
                                  (testoutputs w1)) = 1).
    { destruct Hrows as [[-> Hhit] | (Hnone & k & out & ->)].
      - apply (Hhit l1 eq_refl).
      - rewrite count_after_append, Hnone. unfold of_pair. simpl.
        rewrite !Nat.eqb_refl. reflexivity. }
    split.
    + pose proof (@test_results_body_count_grows _ _ _ (Submission.pk self)
                    (TestCase.pk tc) _ _ _ Hbody). lia.
    + eapply (steps_for_fold (R := keeps (fun w =>
                 List.length (filter (of_pair (Submission.pk self) (TestCase.pk tc))
                                (testoutputs w)) = 1))); [| exact Hloop | exact Hone].
      intros. apply test_results_body_keeps_one.
  - destruct (IH _ _ _ _ Hloop tc Hin) as [Hle Hone]. split; [| exact Hone].
    pose proof (@test_results_body_count_grows _ _ _ (Submission.pk self)
                  (TestCase.pk tc) _ _ _ Hbody). lia.
Qed.

(** X7. After a lazy evaluation that returns, for a submission not known to
    fail: every test case of the assignment has exactly one row for the
    submission, and had at most one before (more than one makes [get]
    raise). *)
Theorem lazy_evaluation_completes_the_cache self w w' res tc :
  test_results E self w = (w', Ok res) ->
  Submission.adding self = true \/ Submission.compiles self = true ->
  In tc (testcases_of (Submission.assignment self) w) ->
  List.length (filter (of_pair (Submission.pk self) (TestCase.pk tc)) (testoutputs w))
    <= 1 /\
  List.length (filter (of_pair (Submission.pk self) (TestCase.pk tc)) (testoutputs w'))
    = 1.
Proof.
  unfold test_results. intros H Hgo Hin.
  assert (Hc : negb (Submission.adding self) && negb (Submission.compiles self) = false)
    by (destruct Hgo as [-> | ->]; [reflexivity | apply andb_false_r]).
  rewrite Hc in H.
  apply bind_Ok in H as (w0 & tcs & H0 & H).
  apply bind_Ok in H as (w1 & l1 & H1 & H).
  apply bind_Ok in H as (w2 & u & H2 & H).
  injection H as <- _.
  unfold testcase_set, reads in H0. injection H0 as <- <-.
  assert (Hs : testoutputs w2 = testoutputs w1).
  { destruct (docker_client l1).
    - assert (Hx : same testoutputs w1 w2)
        by (eapply docker_cleanup_same_testoutputs; exact H2).
      exact Hx.
    - injection H2 as <- _. reflexivity. }
  rewrite Hs. eapply test_results_loop_complete; [exact H1 | exact Hin].
Qed.

Lemma Forall2_left_In {A B : Type} (P : A -> B -> Prop) (l : list A) (l' : list B) :
  Forall2 P l l' -> forall x, In x l -> exists y, P x y.
Proof.
  induction 1 as [| a b l l' Hab _ IH]; intros x Hx; [contradiction |].
  destruct Hx as [<- | Hx]; [exists b; exact Hab | apply IH, Hx].
Qed.

(** X8. After a save whose eager evaluation found the source to compile,
    every test case of the assignment has exactly one row for the
    submission. *)
Theorem eager_evaluation_fills_the_cache self update_fields w w1 self1 tc :
  save E self update_fields true w = (w1, Ok self1) ->
  NoDup (map TestCase.pk (testcases w)) ->
  Submission.compiles self1 = true ->
  In tc (testcases_of (Submission.assignment self1) w1) ->
  List.length (filter (of_pair (Submission.pk self1) (TestCase.pk tc)) (testoutputs w1))
    = 1.
Proof.
  intros H Hnd Hc Hin. unfold save in H.
  apply bind_Ok in H as (w0 & self0 & Hsave & H).
  apply bind_Ok in H as (w2 & c & Hfull & Hflag).
  destruct (@model_save_frame _ _ _ _ _ Hsave) as (Htc0 & Hto0 & _).
  apply model_save_compiles_Ok in Hflag.
  destruct Hflag as (-> & Ha & Hto1 & Htc1).
  apply full_test_Ok in Hfull. destruct Hfull as (news & Hto2 & Htc2 & Hrows).
  simpl in Hc. subst c. simpl in Hin. simpl.
  assert (Htcs : testcases_of (Submission.assignment self0) w1 =
                 testcases_of (Submission.assignment self0) w0).
  { unfold testcases_of. rewrite Htc1, Htc2. reflexivity. }
  rewrite Htcs in Hin. rewrite Hto1, Hto2.
  assert (Hfound : Forall2 (fun tc o =>
             filter (of_pair (Submission.pk self0) (TestCase.pk tc))
               (filter (fun o => negb (of_submission (Submission.pk self0) o))
                  (testoutputs w0) ++ news) = [o])
            (testcases_of (Submission.assignment self0) w0) news).
  { apply (@rows_for_found self0); [exact Hrows | |].
    - unfold testcases_of. apply distinct_keys_filter. rewrite Htc0. exact Hnd.
    - intros o Ho. apply filter_In in Ho. destruct Ho as [_ Ho].
      apply negb_true_iff, Nat.eqb_neq in Ho. exact Ho. }
  destruct (Forall2_left_In Hfound tc Hin) as (o & Hone).
  rewrite Hone. reflexivity.
Qed.

(** ** The lazy evaluation of a partly filled cache *)













(** ** An edited test case and the next lazy evaluation *)






(** ** Saving single columns *)

Lemma rows_of_written pk (f : Submission.t -> Submission.t) w :
  (forall r, Submission.pk (f r) = Submission.pk r) ->
  filter (fun r => Submission.pk r =? pk)
    (map (fun r => if Submission.pk r =? pk then f r else r) (submissions w)) =
  map f (rows_of pk w).
Proof.
  intros Hf. unfold rows_of. induction (submissions w) as [| r l IH]; simpl; [reflexivity |].
  destruct (Submission.pk r =? pk) eqn:Er; simpl.
  - rewrite Hf, Er. simpl. rewrite IH. reflexivity.
  - rewrite Er. exact IH.
Qed.

Lemma rows_of_two_writes k (f g : Submission.t -> Submission.t) (l : list Submission.t) :
  (forall r, Submission.pk (f r) = Submission.pk r) ->
  (forall r, Submission.pk (g r) = Submission.pk r) ->
  filter (fun r => Submission.pk r =? k)
    (map (fun r => if Submission.pk r =? k then g r else r)
       (map (fun r => if Submission.pk r =? k then f r else r) l)) =
  map (fun r => g (f r)) (filter (fun r => Submission.pk r =? k) l).
Proof.
  intros Hf Hg. induction l as [| r l IH]; simpl; [reflexivity |].
  destruct (Submission.pk r =? k) eqn:Er; simpl.
  - rewrite Hf, Er. simpl. rewrite Hg, Hf, Er. simpl. rewrite IH. reflexivity.
  - rewrite Er. simpl. rewrite Er. exact IH.
Qed.

Lemma rows_of_exists pk w row rest :
  rows_of pk w = row :: rest ->
  existsb (fun r => Submission.pk r =? pk) (submissions w) = true.
Proof.
  intros H. apply existsb_exists. exists row.
  assert (Hin : In row (rows_of pk w)) by (rewrite H; left; reflexivity).
  apply filter_In in Hin. exact Hin.
Qed.

Lemma others_kept pk (f : Submission.t -> Submission.t) (l : list Submission.t) r :
  In r l -> Submission.pk r <> pk ->
  In r (map (fun r => if Submission.pk r =? pk then f r else r) l).
Proof.
  intros Hin Hne. apply in_map_iff. exists r. split; [| exact Hin].
  apply Nat.eqb_neq in Hne. rewrite Hne. reflexivity.
Qed.

(** Django's save of a stored instance whose [update_fields] names
    neither the source file nor the student nor the assignment: the
    receiver does nothing and the named columns are written. *)
Lemma model_save_plain self fd fs w :
  Submission.adding self = false ->
  field_in F_source_file (fd :: fs) = false ->
  field_in F_student (fd :: fs) || field_in F_assignment (fd :: fs) = false ->
  existsb (fun r => Submission.pk r =? Submission.pk self) (submissions w) = true ->
  model_save E self (Some (fd :: fs)) w =
  (set_submissions
     (map (fun r => if Submission.pk r =? Submission.pk self
                    then write_columns (fd :: fs) self r else r)
          (submissions w)) w,
   Ok self).
Proof.
  intros Ha Hsrc Hmove Hrow.
  unfold model_save, move_or_delete_submission_file.
  rewrite Ha, Hsrc, Hmove. unfold bind, ret. rewrite Ha, Hrow. reflexivity.
Qed.

(** X11. Confirming a stored submission, in surroundings that let the
    evaluation through: the save returns, the row of the submission has
    [confirmed] set and [compiles] written anew, its student, assignment
    and source path are those the row had (whatever the instance holds),
    and every other row is still there. *)
Theorem confirming_writes_two_columns instance row outs w :
  Submission.adding instance = false ->
  rows_of (Submission.pk instance) w = [row] ->
  clean_for instance w ->
  (gxx E (Submission.source_file instance) = true ->
   build_succeeds E (image_of instance w) = true /\
   Forall2 (exits_with E (image_of instance w))
     (testcases_of (Submission.assignment instance) w) outs) ->
  exists w',
    confirm_form_save E instance w =
      (w', Ok (with_compiles (gxx E (Submission.source_file instance))
                 (with_confirmed true instance))) /\
    rows_of (Submission.pk instance) w' =
      [Submission.mk (Submission.pk row) false (Submission.student row)
         (Submission.assignment row) true (Submission.source_file row)
         (gxx E (Submission.source_file instance))] /\
    (forall r, In r (submissions w) -> Submission.pk r <> Submission.pk instance ->
               In r (submissions w')).
Proof.
  intros Ha Hrow Hclean Henv.
  set (self := with_confirmed true instance).
  assert (Hex : existsb (fun r => Submission.pk r =? Submission.pk self) (submissions w)
                = true) by (eapply rows_of_exists; exact Hrow).
  pose proof (@model_save_plain self F_confirmed [] w Ha eq_refl eq_refl Hex) as Hsave.
  set (w0 := set_submissions
               (map (fun r => if Submission.pk r =? Submission.pk self
                              then write_columns [F_confirmed] self r else r)
                    (submissions w)) w) in *.
  assert (Hne : Some [F_confirmed] <> Some []) by discriminate.
  assert (Hfull : exists w1,
             full_test E self w0 = (w1, Ok (gxx E (Submission.source_file instance))) /\
             submissions w1 = submissions w0).
  { destruct (gxx E (Submission.source_file instance)) eqn:Hgxx.
    - destruct (Henv eq_refl) as [Hbuild Hruns].
      eexists. split.
      + apply (@full_test_passes self outs w0 Hclean Hgxx Hbuild Hruns).
      + reflexivity.
    - destruct Hclean as [Hdir _]. eexists. split.
      + apply (@full_test_fails self w0 Hdir Hgxx).
      + reflexivity. }
  destruct Hfull as (w1 & Hfull & Hsub).
  destruct (@save_runs _ _ _ _ _ _ _ Hsave Hne Hfull) as [Hrun _].
  eexists. split; [exact Hrun |].
  unfold flag_written. split.
  - transitivity
      (map (fun r => write_columns [F_compiles]
                       (with_compiles (gxx E (Submission.source_file instance)) self)
                       (write_columns [F_confirmed] self r))
           (rows_of (Submission.pk instance) w)).
    + unfold rows_of at 1. cbn [submissions set_submissions]. rewrite Hsub.
      exact (@rows_of_two_writes (Submission.pk instance)
               (write_columns [F_confirmed] self)
               (write_columns [F_compiles]
                  (with_compiles (gxx E (Submission.source_file instance)) self))
               (submissions w) (fun _ => eq_refl) (fun _ => eq_refl)).
    + rewrite Hrow. reflexivity.
  - cbn [submissions set_submissions]. rewrite Hsub.
    intros r Hin Hne'.
    apply (@others_kept (Submission.pk instance)); [| exact Hne'].
    apply (@others_kept (Submission.pk instance)); [exact Hin | exact Hne'].
Qed.

(** ** Moving the source file *)









(** ** The grade shown for a submission *)

Lemma filter_all_length {A : Type} (p : A -> bool) (l : list A) :
  List.length (filter p l) = List.length l -> Forall (fun x => p x = true) l.
Proof.
  induction l as [| x l IH]; intros H; [constructor |].
  simpl in H. pose proof (filter_length_le p l) as Hle.
  destruct (p x) eqn:Ep; simpl in H.
  - constructor; [exact Ep | apply IH; lia].
  - lia.
Qed.

Lemma Forall2_left_paired {A B : Type} (P : A -> B -> Prop) (l : list A) (l' : list B) :
  Forall2 P l l' -> forall x, In x l -> exists y, In y l' /\ P x y.
Proof.
  induction 1 as [| a b l l' Hab _ IH]; intros x Hx; [contradiction |].
  destruct Hx as [<- | Hx].
  - exists b. split; [left; reflexivity | exact Hab].
  - destruct (IH x Hx) as (y & Hy & Hxy). exists y. split; [right; exact Hy | exact Hxy].
Qed.

(** X13. A submission that compiles, for an assignment that has no test case
    (any more): the filter divides by zero; nothing is run. *)
Theorem grade_of_an_assignment_without_testcases self w :
  Submission.compiles self = true ->
  testcases_of (Submission.assignment self) w = [] ->
  submissiongrade E self w = (w, Ok ZeroDivisionError).
Proof.
  intros Hc Hnone.
  assert (Hres : test_results E self w = (w, Ok (Results.mk true []))).
  { unfold test_results. rewrite Hc, andb_false_r.
    unfold bind, testcase_set, reads, ret.
    fold (testcases_of (Submission.assignment self) w). rewrite Hnone. reflexivity. }
  unfold submissiongrade. erewrite bind_run; [| exact Hres]. simpl.
  unfold bind, testcase_set, reads, ret.
  fold (testcases_of (Submission.assignment self) w). rewrite Hnone. reflexivity.
Qed.

(** X14. A grade in percent, when the filter returns one: [total] is the
    number of test cases of the assignment and is not zero, [passed] does
    not exceed it, and full marks mean that every test case has a row for
    the submission whose output is the expected output. *)
Theorem grade_counts_the_passed_tests self w w' passed total :
  submissiongrade E self w = (w', Ok (Quotient (Percent passed total))) ->
  total = List.length (testcases_of (Submission.assignment self) w) /\
  0 < total /\
  passed <= total /\
  (passed = total ->
   forall tc, In tc (testcases_of (Submission.assignment self) w) ->
     exists o, In o (testoutputs w') /\
               TestOutput.submission o = Submission.pk self /\
               TestOutput.testcase o = TestCase.pk tc /\
               TestOutput.output o = TestCase.output tc).
Proof.
  intros H. unfold submissiongrade in H.
  apply bind_Ok in H as (w1 & res & Hres & H).
  assert (Htc : same testcases w w1)
    by (eapply test_results_same_testcases; exact Hres).
  unfold same in Htc.
  pose proof Hres as Hshape. apply test_results_Ok in Hshape.
  destruct Hshape as [Hcomp _].
  destruct (Results.compiles res) eqn:Hc; [| discriminate H].
  assert (Hall : Forall2 (answers self w1) (testcases_of (Submission.assignment self) w)
                   (Results.tests res)).
  { eapply test_results_proceeds; [exact Hres |]. right. congruence. }
  unfold bind, testcase_set, reads in H.
  fold (testcases_of (Submission.assignment self) w1) in H.
  assert (Htcs : testcases_of (Submission.assignment self) w1 =
                 testcases_of (Submission.assignment self) w)
    by (unfold testcases_of; rewrite Htc; reflexivity).
  rewrite Htcs in H.
  destruct (List.length (testcases_of (Submission.assignment self) w) =? 0) eqn:Ez;
    [discriminate H |].
  injection H as <- <- <-.
  apply Nat.eqb_neq in Ez.
  pose proof (Forall2_length Hall) as Hlen.
  pose proof (filter_length_le Result.passed (Results.tests res)) as Hle.
  split; [reflexivity |]. split; [lia |]. split; [lia |].
  intros Hfull tc Hin.
  assert (Hpassed : Forall (fun r => Result.passed r = true) (Results.tests res))
    by (apply filter_all_length; lia).
  destruct (Forall2_left_paired Hall tc Hin) as (r & Hr & o & Ho & Hs & Ht & Hcmp).
  rewrite Forall_forall in Hpassed. specialize (Hpassed r Hr).
  exists o. repeat split; auto. apply (compare_passed _ _ Hcmp). exact Hpassed.
Qed.

(** ** The student backend *)

Lemma filter_username_unique (users : list User.t) (u : User.t) :
  NoDup (map User.username users) ->
  In u users ->
  filter (fun v => String.eqb (User.username v) (User.username u)) users = [u].
Proof.
  induction users as [| v users IH]; intros Hnd Hin; [contradiction |].
  simpl in Hnd. apply NoDup_cons_iff in Hnd. destruct Hnd as [Hnotin Hnd].
  simpl. destruct Hin as [-> | Hin].
  - rewrite String.eqb_refl. f_equal. apply filter_none.
    intros x Hx. apply String.eqb_neq. intros Heq. apply Hnotin.
    rewrite <- Heq. apply in_map. exact Hx.
  - destruct (String.eqb_spec (User.username v) (User.username u)) as [Heq | _].
    + elim Hnotin. rewrite Heq. apply in_map. exact Hin.
    + apply IH; assumption.
Qed.

(** X15. With user names that are unique, the backend authenticates exactly
    the stored users that Django lets in and that are not staff, on their
    name alone: it returns such a user for their own name, and never
    returns a staff account, a user that is not stored, or a user under
    another name. *)
Theorem backend_authenticates_students_only
  (can : User.t -> bool) (users : list User.t) (name : string) (u : User.t) :
  NoDup (map User.username users) ->
  (authenticate can users (Some name) = Ok (Some u) <->
   In u users /\ User.username u = name /\ can u = true /\ User.is_staff u = false).
Proof.
  intros Hnd. unfold authenticate, user_can_authenticate. split.
  - destruct (filter (fun v => String.eqb (User.username v) name) users)
      as [| v [| v' rest]] eqn:Ef; try discriminate.
    destruct (can v && negb (User.is_staff v)) eqn:Ec; [| discriminate].
    intros H. injection H as <-.
    assert (Hin : In v (filter (fun v => String.eqb (User.username v) name) users))
      by (rewrite Ef; left; reflexivity).
    apply filter_In in Hin. destruct Hin as [Hin Hname].
    apply String.eqb_eq in Hname. apply andb_prop in Ec. destruct Ec as [Hc Hs].
    apply negb_true_iff in Hs. auto.
  - intros (Hin & <- & Hc & Hs).
    rewrite (filter_username_unique _ _ Hnd Hin), Hc, Hs. reflexivity.
Qed.

(** ** Line endings *)

Lemma with_crlf_head (text : string) (rest : string) :
  with_crlf text <> String newline_char rest.
Proof.
  destruct text as [| c text]; simpl; [discriminate |].
  destruct (Ascii.eqb_spec c newline_char) as [_ | Hne].
  - intros H. injection H as H _. discriminate H.
  - intros H. injection H as H _. contradiction.
Qed.

Lemma replace_crlf_cons (c : ascii) (text : string) :
  (forall rest, text <> String newline_char rest) ->
  replace_crlf (String c text) = String c (replace_crlf text).
Proof.
  intros Hhead. destruct text as [| c' rest]; [reflexivity |].
  cbn [replace_crlf].
  destruct (Ascii.eqb_spec c' newline_char) as [-> | _].
  - elim (Hhead rest). reflexivity.
  - rewrite andb_false_r. reflexivity.
Qed.

Lemma crlf_round_trip (text : string) : replace_crlf (with_crlf text) = text.
Proof.
  induction text as [| c text IH]; [reflexivity |].
  simpl. destruct (Ascii.eqb_spec c newline_char) as [-> | Hne].
  - cbn [replace_crlf]. rewrite !Ascii.eqb_refl. simpl. rewrite IH. reflexivity.
  - rewrite replace_crlf_cons by apply with_crlf_head. rewrite IH. reflexivity.
Qed.

(** X16. A test case sent with Windows line endings is stored as it was
    typed: the cleaning of the form undoes the carriage returns that were
    put before the newlines of the input and of the expected output,
    whatever else the texts hold (carriage returns of their own
    included). *)
Theorem cleaning_restores_the_typed_text (input output : string) :
  testcase_form_clean (with_crlf input) (with_crlf output) = (input, output).
Proof.
  unfold testcase_form_clean. rewrite !crlf_round_trip. reflexivity.
Qed.

(** X17. An expected output typed with Windows line endings is matched by a
    program that writes the same text with Unix line endings. *)
Theorem windows_line_endings_do_not_fail_a_test (text input : string) (pk assignment : nat) :
  exists r,
    compare text
      (TestCase.mk pk assignment
         (fst (testcase_form_clean (with_crlf input) (with_crlf text)))
         (snd (testcase_form_clean (with_crlf input) (with_crlf text)))) = Ok r /\
    Result.passed r = true /\
    Result.missing_output r = 0%Z /\
    Result.input r = input.
Proof.
  unfold testcase_form_clean. simpl. rewrite !crlf_round_trip.
  rewrite compare_ok. eexists. split; [reflexivity |]. simpl.
  rewrite String.eqb_refl. repeat split. lia.
Qed.

(** ** The upload view *)

Lemma filter_map_stable {A : Type} (p : A -> bool) (g : A -> A) (l : list A) :
  (forall x, p (g x) = p x) ->
  filter p (map g l) = map g (filter p l).
Proof.
  intros Hp. induction l as [| x l IH]; simpl; [reflexivity |].
  rewrite Hp. destruct (p x); simpl; rewrite IH; reflexivity.
Qed.

(** The save of a new instance adds one row; whatever the evaluation
    does afterwards, and whether it raises or not, only the rows' column
    [compiles] can differ from that. *)
Lemma save_new_rows self w w' r :
  Submission.adding self = true ->
  save E self None true w = (w', r) ->
  exists g : Submission.t -> Submission.t,
    (forall x, Submission.student (g x) = Submission.student x /\
               Submission.assignment (g x) = Submission.assignment x /\
               Submission.confirmed (g x) = Submission.confirmed x) /\
    submissions w' = map g (submissions w ++ [stored (fresh w) self]).
Proof.
  intros Hadd Hsave.
  assert (Hid : forall l : list Submission.t, l = map (fun x => x) l)
    by (intros l; symmetry; apply map_id).
  unfold save in Hsave.
  assert (Hfirst : model_save E self None w =
            (set_fresh (S (fresh w))
               (set_submissions (submissions w ++ [stored (fresh w) self]) w),
             Ok (stored (fresh w) self))).
  { unfold model_save, move_or_delete_submission_file, bind, ret.
    rewrite Hadd. reflexivity. }
  unfold bind at 1 in Hsave. rewrite Hfirst in Hsave.
  set (w1 := set_fresh _ _) in Hsave.
  set (row := stored (fresh w) self) in *.
  assert (H1 : submissions w1 = submissions w ++ [row]) by reflexivity.
  unfold bind at 1 in Hsave.
  destruct (full_test E row w1) as [w2 [c | e]] eqn:Efull.
  - pose proof (@full_test_same_submissions row _ _ _ Efull) as H2.
    unfold same in H2.
    unfold model_save in Hsave.
    unfold move_or_delete_submission_file, bind, ret in Hsave.
    change (Submission.adding (with_compiles c row)) with false in Hsave.
    cbn [field_in existsb field_eqb orb] in Hsave. cbv beta iota in Hsave.
    change (Submission.pk (with_compiles c row)) with (Submission.pk row) in Hsave.
    destruct (existsb (fun r0 => Submission.pk r0 =? Submission.pk row) (submissions w2)).
    + injection Hsave as <- _. cbn [submissions set_submissions].
      rewrite H2, H1.
      exists (fun r0 => if Submission.pk r0 =? Submission.pk row
                        then write_columns [F_compiles] (with_compiles c row) r0
                        else r0).
      split; [| reflexivity].
      intros x. destruct (Submission.pk x =? Submission.pk row); auto.
    + injection Hsave as <- _. rewrite H2, H1.
      exists (fun x => x). split; [auto | apply Hid].
  - injection Hsave as <- _.
    pose proof (@full_test_same_submissions row _ _ _ Efull) as H2.
    unfold same in H2. rewrite H2, H1.
    exists (fun x => x). split; [auto | apply Hid].
Qed.

(** X18. A student whom the upload view lets through to its form has, once
    the upload is saved, at most ten submissions for the assignment and
    exactly one that is not confirmed, whether the evaluation of the
    upload ends or raises. *)
Theorem upload_stays_within_the_limits
  (assignment_pks : list nat) (enrolled : nat -> nat -> bool)
  (user : Requester.t) (pk : nat) (source_file : string) (w w0 w' : World)
  (r : outcome Submission.t) :
  submission_create_dispatch assignment_pks enrolled user pk w = (w0, Ok Dispatched) ->
  submission_create_form_valid E user pk source_file w0 = (w', r) ->
  List.length (submission_set (Requester.pk user) pk w') <= 10 /\
  List.length (unconfirmed (submission_set (Requester.pk user) pk w')) = 1.
Proof.
  intros Hgate Hsave.
  unfold submission_create_dispatch in Hgate.
  destruct (negb (Requester.is_authenticated user)); [discriminate Hgate |].
  destruct (negb (existsb (Nat.eqb pk) assignment_pks)); [discriminate Hgate |].
  destruct (Requester.is_staff user); [discriminate Hgate |].
  destruct (negb (enrolled pk (Requester.pk user))); [discriminate Hgate |].
  unfold bind, testcase_set, reads, ret in Hgate.
  destruct (List.length _ =? 0) in Hgate; [discriminate Hgate |].
  destruct (List.length (unconfirmed (submission_set (Requester.pk user) pk w)) =? 0)
    eqn:Hnone; [| discriminate Hgate].
  destruct (10 <=? List.length (submission_set (Requester.pk user) pk w))
    eqn:Hfew; [discriminate Hgate |].
  injection Hgate as <-.
  apply Nat.eqb_eq in Hnone. apply Nat.leb_gt in Hfew.
  unfold submission_create_form_valid in Hsave.
  apply save_new_rows in Hsave; [| reflexivity].
  destruct Hsave as (g & Hg & Hrows).
  unfold unconfirmed, submission_set in *. rewrite Hrows.
  rewrite filter_map_stable.
  2:{ intros x. destruct (Hg x) as (-> & -> & _). reflexivity. }
  rewrite filter_map_stable.
  2:{ intros x. destruct (Hg x) as (_ & _ & ->). reflexivity. }
  rewrite !length_map, !filter_app, !length_app.
  cbn [filter stored Submission.student Submission.assignment Submission.confirmed].
  rewrite !Nat.eqb_refl. simpl. rewrite Hnone. lia.
Qed.

(** ** Deleting a submission *)

(** X19. Deleting a submission never raises, with or without its file on
    disk.  Afterwards its row, its outputs and its file are gone, and
    nothing else is: the other files, the other submissions and their
    outputs are all kept. *)
Theorem deleting_a_submission_takes_only_its_own (instance : Submission.t) (w : World) :
  exists w',
    submission_delete instance w = (w', Ok tt) /\
    rows_of (Submission.pk instance) w' = [] /\
    filter (of_submission (Submission.pk instance)) (testoutputs w') = [] /\
    path_exists (Submission.source_file instance) w' = false /\
    (forall f, f <> Submission.source_file instance ->
       (In f (student_files w') <-> In f (student_files w))) /\
    (forall r, Submission.pk r <> Submission.pk instance ->
       (In r (submissions w') <-> In r (submissions w))) /\
    (forall o, TestOutput.submission o <> Submission.pk instance ->
       (In o (testoutputs w') <-> In o (testoutputs w))).
Proof.
  assert (Hfiles : forall l : list string,
    existsb (String.eqb (Submission.source_file instance))
      (filter (fun f => negb (String.eqb (Submission.source_file instance) f)) l) = false).
  { intros l. destruct (existsb _ _) eqn:Ex; [| reflexivity].
    apply existsb_exists in Ex. destruct Ex as (f & Hin & Heq).
    apply filter_In in Hin. destruct Hin as [_ Hin]. rewrite Heq in Hin. discriminate Hin. }
  assert (Hkeep : forall (l : list string) f, f <> Submission.source_file instance ->
    (In f (filter (fun f => negb (String.eqb (Submission.source_file instance) f)) l)
     <-> In f l)).
  { intros l f Hne. rewrite filter_In. split; [intros [H _]; exact H |].
    intros H. split; [exact H |]. apply negb_true_iff, String.eqb_neq.
    intros Heq. apply Hne. symmetry. exact Heq. }
  unfold submission_delete, delete_submission_file, on_commit, delete_source_file,
    testoutputs_delete, modify, bind.
  destruct (path_exists (Submission.source_file instance) w) eqn:Hthere;
    eexists; (split; [reflexivity |]);
    unfold rows_of, path_exists;
    cbn [submissions testoutputs student_files set_submissions set_testoutputs
         set_student_files].
  all: split; [apply filter_none; intros r Hr; apply filter_In in Hr;
               destruct Hr as [_ Hr]; apply negb_true_iff in Hr; exact Hr |].
  all: split; [apply filter_none; intros o Ho; apply filter_In in Ho;
               destruct Ho as [_ Ho]; apply negb_true_iff in Ho; exact Ho |].
  all: split; [first [apply Hfiles | exact Hthere] |].
  all: split; [first [exact (Hkeep _) | intros f _; reflexivity] |].
  all: split; [intros r Hr | intros o Ho]; rewrite filter_In;
       (split; [intros [H _]; exact H |]); intros H; (split; [exact H |]);
       apply negb_true_iff, Nat.eqb_neq; assumption.
Qed.

End Facts.

(** * The properties on the sample data *)

Lemma passed_iff_outputs_equal_witness :
  test_results Sample.env Sample.stored Sample.graded =
    (Sample.graded, Ok Sample.graded_results) /\
  exists tc o,
    nth_error (testcases_of (Submission.assignment Sample.stored) Sample.graded) 0
      = Some tc /\
    In o (testoutputs Sample.graded) /\
    TestOutput.submission o = Submission.pk Sample.stored /\
    TestOutput.testcase o = TestCase.pk tc /\
    (Result.passed (shown (String "5" Sample.nl) Sample.tc1) = true <->
     TestOutput.output o = TestCase.output tc).
Proof.
  split; [reflexivity |].
  exact (@passed_iff_outputs_equal Sample.env Sample.stored Sample.graded
           Sample.graded Sample.graded_results 0
           (shown (String "5" Sample.nl) Sample.tc1) eq_refl eq_refl).
Defined.

Lemma annotation_by_position_witness :
  test_results Sample.env Sample.stored Sample.graded =
    (Sample.graded, Ok Sample.graded_results) /\
  exists tc o,
    nth_error (testcases_of (Submission.assignment Sample.stored) Sample.graded) 1
      = Some tc /\
    In o (testoutputs Sample.graded) /\
    TestOutput.submission o = Submission.pk Sample.stored /\
    TestOutput.testcase o = TestCase.pk tc /\
    List.length (Result.output (shown "3" Sample.tc2)) =
      String.length (TestOutput.output o) /\
    (forall i, i < String.length (TestOutput.output o) ->
       exists a x,
         String.get i (TestOutput.output o) = Some a /\
         nth_error (Result.output (shown "3" Sample.tc2)) i = Some x /\
         Result.char x = a /\
         (Result.incorrect x = true <->
          String.length (TestCase.output tc) <= i \/
          String.get i (TestCase.output tc) <> Some a) /\
         (Result.newline x = true <-> a = newline_char)) /\
    Result.missing_output (shown "3" Sample.tc2) =
      (Z.of_nat (String.length (TestCase.output tc))
       - Z.of_nat (String.length (TestOutput.output o)))%Z.
Proof.
  split; [reflexivity |].
  exact (@annotation_by_position Sample.env Sample.stored Sample.graded
           Sample.graded Sample.graded_results 1
           (shown "3" Sample.tc2) eq_refl eq_refl).
Defined.

(** Scenarios B, C and D of the specification. *)
Example scenario_B :
  compare (String "5" Sample.nl) Sample.tc1 =
  Ok (Result.mk true "3 2"
        [Result.mk_char "5" false false; Result.mk_char newline_char false true] 0).
Proof. reflexivity. Qed.

Example scenario_C :
  compare "5" Sample.tc1 =
  Ok (Result.mk false "3 2" [Result.mk_char "5" false false] 1).
Proof. reflexivity. Qed.

Example scenario_D :
  compare (String "5" (String "5" Sample.nl)) Sample.tc1 =
  Ok (Result.mk false "3 2"
        [Result.mk_char "5" false false; Result.mk_char "5" true false;
         Result.mk_char newline_char true true] (-1)).
Proof. reflexivity. Qed.

Lemma graded_unique_pairs : unique_pairs Sample.graded.
Proof.
  intros s t.
  unfold Sample.graded, Sample.row1, Sample.row2, Sample.row3, of_pair.
  cbn [testoutputs filter TestOutput.submission TestOutput.testcase].
  destruct (Nat.eqb_spec 10 s), (Nat.eqb_spec 11 s),
    (Nat.eqb_spec 1 t), (Nat.eqb_spec 2 t); simpl; lia.
Defined.

Lemma graded_testcase_keys : testcase_keys Sample.graded.
Proof.
  split; simpl.
  - repeat constructor; simpl; lia.
  - repeat constructor.
Defined.

Lemma operations_keep_one_row_per_pair_witness :
  unique_pairs
    (perform Sample.env (Save (Sample.replaced "loop.cpp") (Some [F_source_file]) true)
       Sample.graded) /\
  testcase_keys
    (perform Sample.env (Save (Sample.replaced "loop.cpp") (Some [F_source_file]) true)
       Sample.graded).
Proof.
  apply (@operations_keep_one_row_per_pair Sample.env
           (Save (Sample.replaced "loop.cpp") (Some [F_source_file]) true)
           Sample.graded).
  split; [exact graded_unique_pairs | exact graded_testcase_keys].
Defined.

Lemma failed_compile_runs_nothing_witness :
  exists w',
    save Sample.env (Sample.upload "bad.cpp") None true Sample.empty =
      (w', Ok (with_compiles false (Sample.saved "bad.cpp"))) /\
    flagged 10 false w' /\
    started w' = 0 /\ containers w' = [] /\ testoutputs w' = [] /\
    ~ In 10 (contexts w').
Proof.
  assert (Hne : @None (list field) <> Some []) by discriminate.
  assert (Hdir : ~ In (get_context_path (Sample.saved "bad.cpp"))
                      (contexts (Sample.empty_saved "bad.cpp")))
    by (simpl; tauto).
  destruct (@failed_compile_runs_nothing Sample.env (Sample.upload "bad.cpp") None
              Sample.empty (Sample.empty_saved "bad.cpp") (Sample.saved "bad.cpp")
              eq_refl Hne Hdir eq_refl)
    as (w' & Hrun & _ & Hflag & Hst & Hco & Hto & Hctx).
  exists w'.
  exact (conj Hrun (conj Hflag (conj Hst (conj Hco (conj Hto Hctx))))).
Defined.

Lemma sample_clean (s : Submission.t) (tcs : list TestCase.t)
  (subs : list Submission.t) (tos : list TestOutput.t) (files : list string)
  (n : nat) (lg : list string) (k : nat) :
  clean_for s (mkWorld tcs subs tos files [] [] [] n lg k).
Proof. split; simpl; tauto. Defined.

Lemma sample_runs (source : string) (w : World) :
  String.eqb source "loop.cpp" = false ->
  String.eqb source "slow.cpp" = false ->
  testcases w = [Sample.tc1; Sample.tc2] ->
  Forall2 (exits_with Sample.env (image_of (Sample.saved source) w))
    (testcases_of 7 w) [String "5" Sample.nl; "3"%string].
Proof.
  intros H1 H2 Hw. unfold testcases_of. rewrite Hw. simpl.
  repeat constructor; unfold exits_with; simpl; rewrite H1; [reflexivity |].
  rewrite H2. reflexivity.
Defined.




Lemma lazy_after_eager_runs_nothing_witness :
  exists news,
    testoutputs Sample.evaluated =
      filter (fun o => negb (of_submission 10 o)) (testoutputs Sample.empty) ++ news /\
    rows_for (with_compiles true (Sample.saved "good.cpp"))
      (testcases_of 7 Sample.evaluated) news /\
    test_results Sample.env (with_compiles true (Sample.saved "good.cpp"))
      Sample.evaluated =
      (Sample.evaluated,
       Ok (Results.mk true (shown_all (testcases_of 7 Sample.evaluated) news))).
Proof.
  assert (Hnd : NoDup (map TestCase.pk (testcases Sample.empty)))
    by (repeat constructor; simpl; lia).
  exact (@lazy_after_eager_runs_nothing Sample.env (Sample.upload "good.cpp") None
           Sample.empty Sample.evaluated (with_compiles true (Sample.saved "good.cpp"))
           eq_refl Hnd).
Defined.

(** * The further properties on the sample data *)

Lemma leftover_directory_costs_the_cached_rows_witness :
  full_test Sample.env Sample.stored Cases.leftover =
  (set_testoutputs [] Cases.leftover, Raise FileExistsError).
Proof.
  exact (@leftover_directory_costs_the_cached_rows Sample.env Sample.stored
           Cases.leftover (or_introl eq_refl)).
Defined.

Lemma single_test_stores_what_it_returns_witness :
  exists w',
    single_test Sample.env (Sample.saved "good.cpp") (Some 10) Sample.tc1
      (Cases.built "good.cpp") = (w', Ok (String "5" Sample.nl)) /\
    testoutputs w' = [TestOutput.mk 11 10 1 (String "5" Sample.nl)] /\
    started w' = 1 /\
    containers w' = [].
Proof.
  destruct (@single_test_stores_what_it_returns Sample.env (Sample.saved "good.cpp")
              10 (Sample.image 10 "good.cpp") Sample.tc1 (String "5" Sample.nl)
              (Cases.built "good.cpp") eq_refl eq_refl)
    as (w' & Hrun & Hto & _ & Hst & Hco & _).
  exists w'. exact (conj Hrun (conj Hto (conj Hst Hco))).
Defined.

Lemma undecodable_output_leaves_the_container_witness :
  single_test Cases.env (Sample.saved "binary.cpp") (Some 10) Sample.tc1
    (Cases.built "binary.cpp") =
  (set_started 1
     (set_containers [Container.mk 1 (Sample.image 10 "binary.cpp") 1 Exited]
        (Cases.built "binary.cpp")),
   Raise UnicodeDecodeError).
Proof.
  exact (@undecodable_output_leaves_the_container Cases.env (Sample.saved "binary.cpp")
           10 (Sample.image 10 "binary.cpp") Sample.tc1 (Cases.built "binary.cpp")
           eq_refl eq_refl).
Defined.

Lemma completed_evaluation_cleans_up_witness :
  exists w',
    full_test Sample.env (Sample.saved "good.cpp") (Sample.empty_saved "good.cpp") =
      (w', Ok true) /\
    contexts w' = [] /\ containers w' = [] /\ images w' = [] /\
    log w' = new_log [String "5" Sample.nl; "3"%string].
Proof.
  destruct (@completed_evaluation_cleans_up Sample.env (Sample.saved "good.cpp")
              [String "5" Sample.nl; "3"%string] (Sample.empty_saved "good.cpp")
              (sample_clean _ _ _ _ _ _ _ _) eq_refl eq_refl
              (@sample_runs "good.cpp" (Sample.empty_saved "good.cpp")
                 eq_refl eq_refl eq_refl))
    as (w' & Hrun & Hctx & Hco & Him & _ & Hlog).
  exists w'. exact (conj Hrun (conj Hctx (conj Hco (conj Him Hlog)))).
Defined.

Lemma results_follow_the_test_cases_witness :
  List.length (Results.tests Sample.graded_results) = 2 /\
  map Result.input (Results.tests Sample.graded_results) = ["3 2"; "1 1"]%string.
Proof.
  exact (@results_follow_the_test_cases Sample.env Sample.stored Sample.graded
           Sample.graded Sample.graded_results eq_refl (or_intror eq_refl)).
Defined.


Lemma lazy_evaluation_completes_the_cache_witness :
  List.length (filter (of_pair 10 1) (testoutputs Sample.graded)) <= 1 /\
  List.length (filter (of_pair 10 1) (testoutputs Sample.graded)) = 1.
Proof.
  exact (@lazy_evaluation_completes_the_cache Sample.env Sample.stored Sample.graded
           Sample.graded Sample.graded_results Sample.tc1
           eq_refl (or_intror eq_refl) (or_introl eq_refl)).
Defined.

Lemma eager_evaluation_fills_the_cache_witness :
  List.length (filter (of_pair 10 2) (testoutputs Sample.evaluated)) = 1.
Proof.
  assert (Hnd : NoDup (map TestCase.pk (testcases Sample.empty)))
    by (repeat constructor; simpl; lia).
  exact (@eager_evaluation_fills_the_cache Sample.env (Sample.upload "good.cpp") None
           Sample.empty Sample.evaluated (with_compiles true (Sample.saved "good.cpp"))
           Sample.tc2 eq_refl Hnd eq_refl (or_intror (or_introl eq_refl))).
Defined.





Lemma confirming_writes_two_columns_witness :
  exists w',
    confirm_form_save Sample.env Sample.stored Sample.graded =
      (w', Ok (Submission.mk 10 false 3 7 true "old.cpp" true)) /\
    rows_of 10 w' = [Submission.mk 10 false 3 7 true "old.cpp" true] /\
    In (Submission.mk 11 false 4 7 false "other.cpp" true) (submissions w').
Proof.
  destruct (@confirming_writes_two_columns Sample.env Sample.stored Sample.stored
              [String "5" Sample.nl; "3"%string] Sample.graded
              eq_refl eq_refl (sample_clean _ _ _ _ _ _ _ _)
              (fun _ => conj eq_refl
                          (@sample_runs "old.cpp" Sample.graded
                             eq_refl eq_refl eq_refl)))
    as (w' & Hrun & Hrow & Hothers).
  exists w'. split; [exact Hrun |]. split; [exact Hrow |].
  apply Hothers; [right; left; reflexivity | discriminate].
Defined.


Lemma grade_of_an_assignment_without_testcases_witness :
  submissiongrade Sample.env Cases.orphan Sample.graded =
    (Sample.graded, Ok ZeroDivisionError).
Proof.
  exact (@grade_of_an_assignment_without_testcases Sample.env Cases.orphan
           Sample.graded eq_refl eq_refl).
Defined.

Lemma grade_counts_the_passed_tests_witness :
  submissiongrade Sample.env Sample.stored Sample.graded =
    (Sample.graded, Ok (Quotient (Percent 1 2))) /\
  1 <= 2.
Proof.
  split; [reflexivity |].
  destruct (@grade_counts_the_passed_tests Sample.env Sample.stored Sample.graded
              Sample.graded 1 2 eq_refl) as (_ & _ & Hle & _).
  exact Hle.
Defined.

Lemma cases_users_distinct : NoDup (map User.username Cases.users).
Proof.
  repeat constructor; simpl; intuition discriminate.
Defined.

Lemma backend_authenticates_students_only_witness :
  authenticate User.is_active Cases.users (Some "123456"%string) =
    Ok (Some Cases.student) /\
  authenticate User.is_active Cases.users (Some "admin"%string) <>
    Ok (Some Cases.instructor).
Proof.
  split.
  - apply (@backend_authenticates_students_only User.is_active Cases.users
             "123456"%string Cases.student cases_users_distinct).
    repeat split. left. reflexivity.
  - intros H.
    apply (@backend_authenticates_students_only User.is_active Cases.users
             "admin"%string Cases.instructor cases_users_distinct) in H.
    destruct H as (_ & _ & _ & H). discriminate H.
Defined.

Lemma upload_stays_within_the_limits_witness :
  List.length (submission_set 3 7 Sample.evaluated) <= 10 /\
  List.length (unconfirmed (submission_set 3 7 Sample.evaluated)) = 1.
Proof.
  exact (@upload_stays_within_the_limits Sample.env [7] (fun _ _ => true)
           Cases.requester 7 "good.cpp"%string Sample.empty Sample.empty
           Sample.evaluated (Ok (with_compiles true (Sample.saved "good.cpp")))
           eq_refl eq_refl).
Defined.


(** * Where the code leaves the specification *)

(** C2 on the code. The upload [loop.cpp] compiles and never ends on
    test case 1. Its save does not return: [wait] raises [ReadTimeout]
    and nothing handles it. The container is still there, running (it is
    neither stopped nor removed); no output was read, logged, compared or
    stored; the second test case was never started, and the row keeps the
    [compiles] it was stored with. *)
Theorem timeout_aborts_the_evaluation :
  let r := save Sample.env (Sample.upload "loop.cpp") None true Sample.empty in
  snd r = Raise ReadTimeout /\
  containers (fst r) = [Container.mk 1 (Sample.image 10 "loop.cpp") 1 Running] /\
  started (fst r) = 1 /\
  List.length (testcases_of 7 (fst r)) = 2 /\
  testoutputs (fst r) = [] /\
  log (fst r) = [] /\
  submissions (fst r) = [Sample.saved "loop.cpp"].
Proof. vm_compute. repeat split. Qed.

(** C3 on the code. Once the directory (and the image) exist, a stage
    that raises leaves them behind: the eager evaluation when a program
    does not end in time, the lazy evaluation likewise (submission 12
    passed test case 1 before test case 2 was added), and the eager
    evaluation when the image does not build (the directory stays). The
    next evaluation of that submission then stops at [os.makedirs]. *)
Theorem failure_leaves_directory_and_image :
  (let r := full_test Sample.env (Sample.saved "loop.cpp")
              (Sample.empty_saved "loop.cpp") in
   snd r = Raise ReadTimeout /\
   contexts (fst r) = [10] /\
   images (fst r) = [Sample.image 10 "loop.cpp"]) /\
  (let r := test_results Sample.env Sample.slow Sample.graded_slow in
   snd r = Raise ReadTimeout /\
   contexts (fst r) = [12] /\
   images (fst r) = [Sample.image 12 "slow.cpp"]) /\
  (let r := full_test Sample.env (Sample.saved "nobuild.cpp")
              (Sample.empty_saved "nobuild.cpp") in
   snd r = Raise BuildError /\
   contexts (fst r) = [10] /\
   snd (full_test Sample.env (Sample.saved "nobuild.cpp") (fst r)) =
     Raise FileExistsError).
Proof. vm_compute. repeat split. Qed.
